(** * aralog: the line formatter, the serialised writer and the file roller

    A shallow embedding of [aralog.go] (package [aralog]) and the properties
    of its formatting, writing and rotation code.

    Conventions of the embedding:
    - a Go [string] is a Rocq [string] (a sequence of 8-bit characters), a Go
      [[]byte] is a [list ascii]; [append(buf, s...)] is [buf ++ bytes s];
    - Go's [int] and [uint] are 64-bit: they are [Z] with the wrap-around
      written out ([wrap_int], [to_uint]);
    - a run-time panic (index out of range) is [None];
    - the operating system the code talks to ([os.OpenFile], [os.Rename],
      [Close], [Write]) is an explicit state that every call threads, with
      the package variable [currentOutFile] beside it;
    - a [*Logger] is a record that each method takes and returns; what the
      clock and the run-time stack answer ([time.Now], [runtime.Caller]) are
      arguments;
    - one call runs at a time: the mutex of the Logger, which every call of
      [output] holds around its work, is not part of the embedding;
    - the two lines of [rollFile] that note a failure in the buffer are not
      Go: what they do is a parameter, [append_warning], of [rollFile] and
      of all that calls it, and of every theorem on them.

    The definitions come first: the code, then the notions of the
    specification that the theorems compare it with, then the states of the
    examples.  The theorems follow, in the order itoa, formatHeader, output,
    construction, rollFile; the last part applies them to concrete Loggers
    and states. *)

From Stdlib Require Import ZArith Ascii String List Lia.
From stdpp Require Import gmap strings list.

Local Open Scope Z_scope.

(** ** Bytes and machine integers *)

Definition bytes (s : string) : list ascii := list_ascii_of_string s.

Definition newline : ascii := ascii_of_nat 10.

Definition min_int : Z := - 2 ^ 63.
Definition max_int : Z := 2 ^ 63 - 1.

(** [uint(i)]: the conversion of an [int] to the unsigned type of the same size. *)
Definition to_uint (i : Z) : Z := i mod 2 ^ 64.

(** The result of an [int] operation, in two's complement. *)
Definition wrap_int (i : Z) : Z := (i + 2 ^ 63) mod 2 ^ 64 - 2 ^ 63.

(** [byte(d) + '0'] *)
Definition digit (d : Z) : ascii := ascii_of_N (Z.to_N ((48 + d) mod 256)).

(** ** itoa *)

(** The loop of [itoa] over its scratch array [b] of 32 bytes:
    [for ; u > 0 || wid > 0; u /= 10 { bp--; wid--; b[bp] = byte(u%10) + '0' }].
    The recursion is on [bp], the index that only goes down; the store into
    [b[bp]] with [bp] below zero is the run-time panic. *)
Fixpoint itoa_loop (bp : nat) (b : list ascii) (u wid : Z) : option (nat * list ascii) :=
  if (0 <? u) || (0 <? wid) then
    match bp with
    | O => None
    | S bp' =>
        itoa_loop bp' (<[bp' := digit (u mod 10)]> b) (u / 10) (wrap_int (wid - 1))
    end
  else Some (bp, b).

Definition itoa (buf : list ascii) (i wid : Z) : option (list ascii) :=
  let u := to_uint i in
  if (u =? 0) && (wid <=? 1) then Some (buf ++ ["0"%char])
  else
    match itoa_loop 32 (replicate 32 zero) u wid with
    | Some (bp, b) => Some (buf ++ drop bp b)
    | None => None
    end.

(** ** Decimal notation, as the specification speaks of it *)

(** The decimal digits of [n], most significant first; [fuel] bounds their
    number. *)
Fixpoint decimal_fuel (fuel : nat) (n : Z) : list ascii :=
  match fuel with
  | O => []
  | S fuel' =>
      if n <? 10 then [digit n]
      else decimal_fuel fuel' (n / 10) ++ [digit (n mod 10)]
  end.

Definition decimal (n : Z) : list ascii :=
  decimal_fuel (S (Z.to_nat (Z.log2 n))) n.

Definition digitCount (n : Z) : Z := Z.of_nat (length (decimal n)).

(** The number a sequence of decimal digits denotes. *)
Definition digit_value (c : ascii) : Z := Z.of_N (N_of_ascii c) - 48.

Definition decimal_value (ds : list ascii) : Z :=
  fold_left (fun acc c => 10 * acc + digit_value c) ds 0.

Definition is_digit (c : ascii) : Prop := 0 <= digit_value c <= 9.

(** [n] written in at least [w] digits, zeros on the left. *)
Definition zero_padded (w n : Z) : list ascii :=
  replicate (Z.to_nat (w - digitCount n)) "0"%char ++ decimal n.

(** What the loop leaves in the array, from a quotient [u] and a remaining
    width [wid]: nothing but zeros once the quotient is exhausted. *)
Definition loop_out (u wid : Z) : list ascii :=
  if u =? 0 then replicate (Z.to_nat wid) "0"%char else zero_padded wid u.


(** ** Flags *)

Definition Ldate : Z := 1.
Definition Ltime : Z := 2.
Definition Lmicroseconds : Z := 4.
Definition Llongfile : Z := 8.
Definition Lshortfile : Z := 16.
Definition LstdFlags : Z := Z.lor Ldate Ltime.

(** ** time.Time

    An instant as the code observes it: [Date()] is [(Year, Month, Day)],
    [Clock()] is [(Hour, Minute, Second)], and [Nanosecond()] and [Unix()]. *)
Record Time := {
  Year : Z; Month : Z; Day : Z;
  Hour : Z; Minute : Z; Second : Z;
  Nanosecond : Z;
  Unix : Z
}.

(** ** Go's conversion of an integer to a string

    [string(v)] for an integer [v] is the UTF-8 encoding of the code point
    [v] (the runtime's [intstring] and [encoderune]); a value that is no
    code point gives the encoding of U+FFFD. *)
Definition to_byte (x : Z) : ascii := ascii_of_N (Z.to_N (x mod 256)).

Definition maxRune : Z := 1114111.
Definition runeError : Z := 65533.

Definition is_rune (v : Z) : bool :=
  (0 <=? v) && (v <=? maxRune) && negb ((55296 <=? v) && (v <=? 57343)).

Definition encoderune (r : Z) : list ascii :=
  if r <=? 127 then [to_byte r]
  else if r <=? 2047 then
    [to_byte (Z.lor 192 (Z.shiftr r 6));
     to_byte (Z.lor 128 (Z.land r 63))]
  else if r <=? 65535 then
    [to_byte (Z.lor 224 (Z.shiftr r 12));
     to_byte (Z.lor 128 (Z.land (Z.shiftr r 6) 63));
     to_byte (Z.lor 128 (Z.land r 63))]
  else
    [to_byte (Z.lor 240 (Z.shiftr r 18));
     to_byte (Z.lor 128 (Z.land (Z.shiftr r 12) 63));
     to_byte (Z.lor 128 (Z.land (Z.shiftr r 6) 63));
     to_byte (Z.lor 128 (Z.land r 63))].

Definition intstring (v : Z) : string :=
  string_of_list_ascii (encoderune (if is_rune v then v else runeError)).

(** ** The operating system

    Files are inodes (an index into [data]) that the directory [dir] names;
    a [*os.File] is a handle (an index into [files]) on a file object that
    remembers its name, its inode and whether it was closed.  [calls] logs
    every system call with its result, oldest first. *)

Inductive Errno := ENOENT | EINVAL | ErrClosed.

Definition errno_text (e : Errno) : string :=
  match e with
  | ENOENT => "no such file or directory"
  | EINVAL => "invalid argument"
  | ErrClosed => "file already closed"
  end.

Inductive error :=
| PathError (op path : string) (e : Errno)
| LinkError (op old new : string) (e : Errno).

(** [err.Error()] *)
Definition Error (e : error) : string :=
  match e with
  | PathError op p e => op +:+ " " +:+ p +:+ ": " +:+ errno_text e
  | LinkError op o n e => op +:+ " " +:+ o +:+ " " +:+ n +:+ ": " +:+ errno_text e
  end.

Definition File := nat.

Record FileObj := { f_name : string; f_inode : nat; f_closed : bool }.

Inductive Call :=
| CallOpen (name : string) (flg perm : Z) (r : error + File)
| CallClose (f : File) (r : option error)
| CallRename (old new : string) (r : option error)
| CallWrite (f : File) (b : list ascii) (r : option error).

Record OS := {
  dir : gmap string nat;
  data : list (list ascii);
  files : list FileObj;
  calls : list Call
}.

Definition O_WRONLY : Z := 1.
Definition O_CREATE : Z := 64.
Definition O_APPEND : Z := 1024.

Definition log_call (c : Call) (w : OS) : OS :=
  {| dir := dir w; data := data w; files := files w; calls := calls w ++ [c] |}.

(** Whether a name holds a NUL byte.  Go's [syscall] turns every name into a
    C string before the system sees it, and refuses one that holds a NUL. *)
Definition has_nul (s : string) : bool :=
  existsb (Ascii.eqb zero) (bytes s).

(** The error of an open at a name that the directory does not have. *)
Definition absent (name : string) : Errno :=
  if has_nul name then EINVAL else ENOENT.

(** [os.OpenFile]: a path that names no file is an error unless [O_CREATE]
    is among the flags, in which case an empty file is made there; a name
    that holds a NUL byte is refused ([EINVAL]) and never made.  (No
    directory has such a name, so the test comes where the name is not
    found.) *)
Definition OpenFile (name : string) (flg perm : Z) (w : OS) : (error + File) * OS :=
  let f := length (files w) in
  match dir w !! name with
  | Some ino =>
      (inr f,
       {| dir := dir w; data := data w;
          files := files w ++ [{| f_name := name; f_inode := ino; f_closed := false |}];
          calls := calls w ++ [CallOpen name flg perm (inr f)] |})
  | None =>
      if has_nul name || (Z.land flg O_CREATE =? 0) then
        let e := PathError "open" name (absent name) in
        (inl e, log_call (CallOpen name flg perm (inl e)) w)
      else
        let ino := length (data w) in
        (inr f,
         {| dir := <[name := ino]> (dir w); data := data w ++ [[]];
            files := files w ++ [{| f_name := name; f_inode := ino; f_closed := false |}];
            calls := calls w ++ [CallOpen name flg perm (inr f)] |})
  end.

(** [Close] on a file object: closing twice is an error. *)
Definition Close (f : File) (w : OS) : option error * OS :=
  match files w !! f with
  | Some fo =>
      if f_closed fo then
        let e := PathError "close" (f_name fo) ErrClosed in
        (Some e, log_call (CallClose f (Some e)) w)
      else
        (None,
         {| dir := dir w; data := data w;
            files := <[f := {| f_name := f_name fo; f_inode := f_inode fo; f_closed := true |}]> (files w);
            calls := calls w ++ [CallClose f None] |})
  | None =>
      let e := PathError "close" "" EINVAL in
      (Some e, log_call (CallClose f (Some e)) w)
  end.

(** [os.Rename]: a name that holds a NUL byte is refused ([EINVAL]);
    otherwise the old path must name a file; the new path then names it, in
    the place of whatever file it named before, and the old path names
    nothing. *)
Definition Rename (old new : string) (w : OS) : option error * OS :=
  if has_nul old || has_nul new then
    let e := LinkError "rename" old new EINVAL in
    (Some e, log_call (CallRename old new (Some e)) w)
  else
    match dir w !! old with
    | Some ino =>
        (None,
         {| dir := <[new := ino]> (delete old (dir w)); data := data w;
            files := files w; calls := calls w ++ [CallRename old new None] |})
    | None =>
        let e := LinkError "rename" old new ENOENT in
        (Some e, log_call (CallRename old new (Some e)) w)
    end.

(** [Write] on a file object: the bytes go to the end of its inode, as for
    every file opened with [O_APPEND]; a closed file takes nothing. *)
Definition Write (f : File) (b : list ascii) (w : OS) : option error * OS :=
  match files w !! f with
  | Some fo =>
      if f_closed fo then
        let e := PathError "write" (f_name fo) ErrClosed in
        (Some e, log_call (CallWrite f b (Some e)) w)
      else
        (None,
         {| dir := dir w;
            data := alter (fun old => old ++ b) (f_inode fo) (data w);
            files := files w;
            calls := calls w ++ [CallWrite f b None] |})
  | None =>
      let e := PathError "write" "" EINVAL in
      (Some e, log_call (CallWrite f b (Some e)) w)
  end.

(** A handle is open when its file object exists and was not closed. *)
Definition is_open (f : File) (w : OS) : bool :=
  match files w !! f with
  | Some fo => negb (f_closed fo)
  | None => false
  end.

(** The content of the file behind a handle. *)
Definition file_content_of (f : File) (w : OS) : option (list ascii) :=
  match files w !! f with
  | Some fo => data w !! f_inode fo
  | None => None
  end.

(** The content of the file a path names. *)
Definition file_content (name : string) (w : OS) : option (list ascii) :=
  match dir w !! name with
  | Some ino => data w !! ino
  | None => None
  end.

(** ** The package state: the operating system and the package-level
    variable [currentOutFile] ([None] is [nil]). *)
Record State := { os : OS; currentOutFile : option File }.

(** ** Logger *)

Record Logger := {
  prefix : string;
  flag : Z;
  out : File;
  buf : list ascii;
  size : Z;
  path : string;
  maxsize : Z
}.

Definition set_buf (l : Logger) (b : list ascii) : Logger :=
  {| prefix := prefix l; flag := flag l; out := out l; buf := b;
     size := size l; path := path l; maxsize := maxsize l |}.

Definition set_size (l : Logger) (n : Z) : Logger :=
  {| prefix := prefix l; flag := flag l; out := out l; buf := buf l;
     size := n; path := path l; maxsize := maxsize l |}.

Definition set_out (l : Logger) (f : File) : Logger :=
  {| prefix := prefix l; flag := flag l; out := f; buf := buf l;
     size := size l; path := path l; maxsize := maxsize l |}.

(** [New]: a Logger on a writer that is already there. *)
Definition New (out : File) (prefix : string) (flag : Z) : Logger :=
  {| prefix := prefix; flag := flag; out := out; buf := [];
     size := 0; path := ""; maxsize := 0 |}.

Definition NewRollFileLogger (path : string) (maxsize flag : Z) (st : State)
  : (error + Logger) * State :=
  let '(r, w) := OpenFile path (Z.lor O_APPEND O_WRONLY) 384 (os st) in
  match r with
  | inl err => (inl err, {| os := w; currentOutFile := currentOutFile st |})
  | inr out =>
      let maxsize := if maxsize <? 1024 * 1024 then 1024 * 1024 * 10 else maxsize in
      (inr {| prefix := ""; flag := flag; out := out; buf := [];
              size := 0; path := path; maxsize := maxsize |},
       {| os := w; currentOutFile := Some out |})
  end.

Definition NewFileLogger (path : string) (flag : Z) (st : State)
  : (error + Logger) * State :=
  NewRollFileLogger path (1024 * 1024 * 10) flag st.

(** ** formatHeader *)

(** [f & mask != 0] *)
Definition flag_any (f mask : Z) : bool := negb (Z.land f mask =? 0).

(** [s[i:]] *)
Fixpoint string_from (i : nat) (s : string) : string :=
  match i, s with
  | O, _ => s
  | S i', String _ s' => string_from i' s'
  | S _, EmptyString => EmptyString
  end.

(** The search of [formatHeader] for the last separator:
    [for i := len(file) - 1; i > 0; i-- { if file[i] == '/' { short = file[i+1:]; break } }].
    At [i = 0] the loop is over and [short] is still the whole of [file]. *)
Fixpoint short_loop (file : string) (i : nat) : string :=
  match i with
  | O => file
  | S i' =>
      match String.get i file with
      | Some c => if Ascii.eqb c "/" then string_from (i + 1) file
                  else short_loop file i'
      | None => short_loop file i'
      end
  end.

Definition shortfile (file : string) : string :=
  short_loop file (String.length file - 1).

Definition formatHeader (l : Logger) (buf : list ascii) (t : Time)
    (file : string) (line : Z) : option (list ascii) :=
  let buf := buf ++ bytes (prefix l) in
  buf ←
    (if flag_any (flag l) (Z.lor Ldate (Z.lor Ltime Lmicroseconds)) then
       buf ←
         (if flag_any (flag l) Ldate then
            buf ← itoa buf (Year t) 4;
            buf ← itoa (buf ++ ["/"%char]) (Month t) 2;
            buf ← itoa (buf ++ ["/"%char]) (Day t) 2;
            Some (buf ++ [" "%char])
          else Some buf);
       if flag_any (flag l) (Z.lor Ltime Lmicroseconds) then
         buf ← itoa buf (Hour t) 2;
         buf ← itoa (buf ++ [":"%char]) (Minute t) 2;
         buf ← itoa (buf ++ [":"%char]) (Second t) 2;
         buf ←
           (if flag_any (flag l) Lmicroseconds then
              itoa (buf ++ ["."%char]) (Z.quot (Nanosecond t) 1000) 6
            else Some buf);
         Some (buf ++ [" "%char])
       else Some buf
     else Some buf);
  if flag_any (flag l) (Z.lor Lshortfile Llongfile) then
    let file := if flag_any (flag l) Lshortfile then shortfile file else file in
    buf ← itoa (buf ++ bytes file ++ [":"%char]) line (-1);
    Some (buf ++ bytes ": ")
  else Some buf.

(** ** rollFile *)

(** One way to mend the two lines of [rollFile] that note a failure: the
    bytes of the string go to the buffer, then a newline. *)
Definition append_line (b : list ascii) (s : string) : list ascii :=
  b ++ bytes s ++ [newline].

Section Repair.

(** Lines 222 and 231 of the source read
    [l.buf = append(l.buf, msg + err.Error(), '\n')].  Go does not accept
    them: the elements appended to a [[]byte] are bytes, and the first of
    them here is a string.  What a build of the package does at these lines
    is therefore up to the mending of them, and it is a parameter of
    [rollFile] and of all that calls it: [append_warning b s] is the buffer
    that a mended line assigns to [l.buf], from the buffer [b] before it and
    the string [s] of the message and the error.  Every theorem on
    [rollFile] and [output] is proved for every such function;
    [append_line] is one of them. *)
Variable append_warning : list ascii -> string -> list ascii.

Definition warn (l : Logger) (msg : string) (e : error) : Logger :=
  set_buf l (append_warning (buf l) (msg +:+ Error e)).

Definition rolled_name (p : string) (now : Time) : string :=
  p +:+ intstring (Year now) +:+ intstring (Month now) +:+ intstring (Day now)
    +:+ intstring (Hour now) +:+ intstring (Minute now) +:+ intstring (Second now).

(** The first lines of a rotation, "close file before rename it": the file
    closed is the one of the package variable, and a failure to close only
    takes the buffer through the line that is to note it. *)
Definition close_current (l : Logger) (st : State) : Logger * OS :=
  match currentOutFile st with
  | Some f =>
      match Close f (os st) with
      | (Some err, w) =>
          (warn l "[XXX] ARALOGGER ERROR: Close current output file failed, " err, w)
      | (None, w) => (l, w)
      end
  | None => (l, os st)
  end.

Definition rollFile (l : Logger) (now : Time) (st : State)
  : option error * Logger * State :=
  let l := set_size l (to_uint (size l + Z.of_nat (length (buf l)))) in
  if maxsize l <? size l then
    let '(l, w) := close_current l st in
    let newPath := path l in
    let '(l, newPath, w) :=
      match Rename (path l) (rolled_name (path l) now) w with
      | (Some err, w) =>
          (warn l "[XXX] ARALOGGER ERROR: Rolling file failed, " err,
           path l +:+ intstring (Unix now), w)
      | (None, w) => (l, newPath, w)
      end in
    match OpenFile newPath (Z.lor O_APPEND O_WRONLY) 384 w with
    | (inl err, w) => (Some err, l, {| os := w; currentOutFile := currentOutFile st |})
    | (inr newOut, w) =>
        (None,
         set_size (set_out l newOut) (to_uint (Z.of_nat (length (buf l)))),
         {| os := w; currentOutFile := Some newOut |})
    end
  else (None, l, st).

(** ** output *)

(** The lines of [output] that build the buffer: the buffer is emptied, the
    header formatted, the message appended, and a newline after a message
    that has a last byte other than a newline. *)
Definition format_line (l : Logger) (now : Time) (file : string) (line : Z)
    (s : string) : option (list ascii) :=
  b ← formatHeader l [] now file line;
  let b := b ++ bytes s in
  Some (if (0 <? Z.of_nat (String.length s)) &&
           negb (match String.get (String.length s - 1) s with
                 | Some c => Ascii.eqb c newline
                 | None => false
                 end)
        then b ++ [newline] else b).

(** The lines of [output] that find the caller: [file] and [line] keep
    their zero values unless a file option is set; [Caller] is what
    [runtime.Caller] answers at each depth, [None] when its [ok] is false. *)
Definition caller_info (l : Logger) (calldepth : Z)
    (Caller : Z -> option (string * Z)) : string * Z :=
  if flag_any (flag l) (Z.lor Lshortfile Llongfile) then
    match Caller calldepth with
    | Some (file, line) => (file, line)
    | None => ("???"%string, 0)
    end
  else (EmptyString, 0).

(** [output]: [now] is what [time.Now()] gave.  The result is [None] on a
    run-time panic; otherwise the error returned ([None] for [nil]), the
    Logger and the state afterwards. *)
Definition output (l : Logger) (calldepth : Z) (s : string)
    (now : Time) (Caller : Z -> option (string * Z)) (st : State)
  : option (option error * Logger * State) :=
  let '(file, line) := caller_info l calldepth Caller in
  b ← format_line l now file line s;
  let l := set_buf l b in
  let write (l : Logger) (st : State) :=
    let '(err, w) := Write (out l) (buf l) (os st) in
    (err, l, {| os := w; currentOutFile := currentOutFile st |}) in
  if 0 <? Z.of_nat (String.length (path l)) then
    match rollFile l now st with
    | (Some err, l, st) => Some (Some err, l, st)
    | (None, l, st) => Some (write l st)
    end
  else Some (write l st).

Definition Debug (l : Logger) (s : string) :=
  output l 2 s.

(** ** The line and the file name, as the specification words them *)

(** Whether the bit of an option is set in a flag word. *)
Definition has_Date (f : Z) : bool := Z.testbit f 0.
Definition has_Time (f : Z) : bool := Z.testbit f 1.
Definition has_Microseconds (f : Z) : bool := Z.testbit f 2.
Definition has_LongFile (f : Z) : bool := Z.testbit f 3.
Definition has_ShortFile (f : Z) : bool := Z.testbit f 4.

(** [YYYY/MM/DD ] *)
Definition date_field (t : Time) : list ascii :=
  zero_padded 4 (Year t) ++ bytes "/" ++ zero_padded 2 (Month t) ++ bytes "/"
    ++ zero_padded 2 (Day t) ++ bytes " ".

(** [HH:MM:SS ] or [HH:MM:SS.NNNNNN ] *)
Definition time_field (micros : bool) (t : Time) : list ascii :=
  zero_padded 2 (Hour t) ++ bytes ":" ++ zero_padded 2 (Minute t) ++ bytes ":"
    ++ zero_padded 2 (Second t)
    ++ (if micros then bytes "." ++ zero_padded 6 (Nanosecond t / 1000) else [])
    ++ bytes " ".

(** [file:line: ] *)
Definition file_field (file : string) (line : Z) : list ascii :=
  bytes file ++ bytes ":" ++ decimal line ++ bytes ": ".

Definition ends_in_newline (s : string) : bool :=
  match last (bytes s) with
  | Some c => Ascii.eqb c newline
  | None => false
  end.

(** [<prefix><date ><time[.micros] ><file:line: >]: each field is there when
    its options are set, in this order; [shown] is the file name to show. *)
Definition header_template (pre : string) (f : Z) (t : Time)
    (shown : string) (line : Z) : list ascii :=
  bytes pre
    ++ (if has_Date f then date_field t else [])
    ++ (if has_Time f || has_Microseconds f
        then time_field (has_Microseconds f) t else [])
    ++ (if has_ShortFile f || has_LongFile f then file_field shown line else []).

(** The header, the message, and a newline after a message that is not
    empty and does not end in one. *)
Definition line_template (pre : string) (f : Z) (t : Time)
    (shown : string) (line : Z) (msg : string) : list ascii :=
  header_template pre f t shown line ++ bytes msg
    ++ (if negb (String.eqb msg "") && negb (ends_in_newline msg)
        then [newline] else []).

(** The file name a header shows for the caller's file. *)
Definition shown_file (f : Z) (file : string) : string :=
  if has_ShortFile f then shortfile file else file.

Fixpoint has_separator (s : string) : bool :=
  match s with
  | EmptyString => false
  | String c s' => Ascii.eqb c "/" || has_separator s'
  end.

(** The substring after the last path separator, the whole string when it
    has none. *)
Fixpoint after_last_separator (s : string) : string :=
  match s with
  | EmptyString => EmptyString
  | String c s' =>
      if has_separator s' then after_last_separator s'
      else if Ascii.eqb c "/" then s' else s
  end.

(** A time of day and a date with every component in its range. *)
Definition valid_time (t : Time) : Prop :=
  0 <= Year t <= 9999 /\ 1 <= Month t <= 12 /\ 1 <= Day t <= 31 /\
  0 <= Hour t <= 23 /\ 0 <= Minute t <= 59 /\ 0 <= Second t <= 59 /\
  0 <= Nanosecond t <= 999999999.

(** Three minutes and four seconds past noon, on the day of the comment in
    the source. *)
Definition noon_0304 : Time :=
  {| Year := 2009; Month := 1; Day := 23; Hour := 12; Minute := 3; Second := 4;
     Nanosecond := 123123000; Unix := 1232712184 |}.

(** An operating system with one open stream and no file. *)
Definition one_stream : State :=
  {| os := {| dir := ∅; data := [[]];
              files := [{| f_name := "/dev/stderr"; f_inode := 0; f_closed := false |}];
              calls := [] |};
     currentOutFile := None |}.

Definition no_caller : Z -> option (string * Z) := fun _ => None.

(** ** What a rotation does, in the words of the claims *)

(** The updated byte counter of [rollFile]. *)
Definition counted (l : Logger) : Z :=
  to_uint (size l + Z.of_nat (length (buf l))).

(** The path [rollFile] opens, from the result of its rename. *)
Definition opened_path (l : Logger) (now : Time) (renamed : option error) : string :=
  match renamed with
  | None => path l
  | Some _ => path l +:+ intstring (Unix now)
  end.

(** The operating system once [rollFile] has closed the package's current
    file, if there is one. *)
Definition after_close (st : State) : OS :=
  match currentOutFile st with
  | Some f => (Close f (os st)).2
  | None => os st
  end.

(** The result of the rename of [rollFile]. *)
Definition renamed (l : Logger) (now : Time) (st : State) : option error :=
  (Rename (path l) (rolled_name (path l) now) (after_close st)).1.

(** The calls made between two states of the operating system. *)
Definition calls_since (w w' : OS) : list Call :=
  drop (length (calls w)) (calls w').

Definition is_write (c : Call) : bool :=
  match c with CallWrite _ _ _ => true | _ => false end.

(** The rotated name as the specification words it: the path, then the
    decimal year, month, day, hour, minute and second, nothing between. *)
Definition decimal_rolled_name (p : string) (now : Time) : string :=
  p +:+ string_of_list_ascii
          (decimal (Year now) ++ decimal (Month now) ++ decimal (Day now)
           ++ decimal (Hour now) ++ decimal (Minute now) ++ decimal (Second now)).

Definition decimal_unix_name (p : string) (now : Time) : string :=
  p +:+ string_of_list_ascii (decimal (Unix now)).

(** ** States of the examples *)

Definition MiB : Z := 1024 * 1024.

(** A directory with the one file [ara.log], and nothing open. *)
Definition one_log : State :=
  {| os := {| dir := {[ "ara.log"%string := 0%nat ]}; data := [[]];
              files := []; calls := [] |};
     currentOutFile := None |}.

(** A directory with the two files [a.log] and [b.log]. *)
Definition two_logs : State :=
  {| os := {| dir := <[ "a.log"%string := 0%nat ]> {[ "b.log"%string := 1%nat ]};
              data := [[]; []]; files := []; calls := [] |};
     currentOutFile := None |}.

(** The Logger that a constructor returned, or a Logger on no file. *)
Definition made (r : (error + Logger) * State) : Logger :=
  match r.1 with
  | inr l => l
  | inl _ => New 0%nat "" 0
  end.

(** The result of [output], when it did not panic. *)
Definition returned (r : option (option error * Logger * State))
  : option error * Logger * State :=
  match r with
  | Some x => x
  | None => (None, New 0%nat "" 0, one_log)
  end.

(** The name [rollFile] falls back on at [noon_0304]: the path and U+FFFD. *)
Definition fallback_name : string :=
  "ara.log" +:+ string_of_list_ascii (map ascii_of_nat [239; 191; 189]%nat).


(** A Logger whose counter stands at [n]: it has emitted [n] bytes since
    it was made or last rotated. *)
Definition after_bytes (n : Z) (l : Logger) : Logger := set_size l n.

(** *** One Logger on [ara.log], rotating twice *)

Definition ara_logger : (error + Logger) * State :=
  NewRollFileLogger "ara.log" MiB LstdFlags one_log.

(** The call that crosses the threshold, after a mebibyte of lines. *)
Definition first_roll : option error * Logger * State :=
  returned (output (after_bytes MiB (made ara_logger)) 2 "hello"
              noon_0304 no_caller ara_logger.2).

(** The next call on the same Logger. *)
Definition second_roll : option error * Logger * State :=
  returned (output first_roll.1.2 2 "again" noon_0304 no_caller first_roll.2).

(** *** Two Loggers, on [a.log] and on [b.log] *)

Definition logger_a : (error + Logger) * State :=
  NewRollFileLogger "a.log" MiB LstdFlags two_logs.

Definition logger_b : (error + Logger) * State :=
  NewRollFileLogger "b.log" MiB LstdFlags logger_a.2.

(** The Logger on [a.log] crosses its threshold. *)
Definition roll_a : option error * Logger * State :=
  returned (output (after_bytes MiB (made logger_a)) 2 "hello"
              noon_0304 no_caller logger_b.2).

(** The Logger on [b.log] writes a line, before and after that. *)
Definition emit_b_before : option error * Logger * State :=
  returned (output (made logger_b) 2 "hello" noon_0304 no_caller logger_b.2).

Definition emit_b_after : option error * Logger * State :=
  returned (output (made logger_b) 2 "hello" noon_0304 no_caller roll_a.2).

(** *** Two Loggers on [ara.log], and a file at the fallback name *)




Definition hello_line : list ascii :=
  bytes "2009/01/23 12:03:04 hello" ++ [newline].


(** ** Further notions for the properties of the code *)

(** A Logger with another flag word. *)
Definition set_flag (l : Logger) (f : Z) : Logger :=
  {| prefix := prefix l; flag := f; out := out l; buf := buf l;
     size := size l; path := path l; maxsize := maxsize l |}.

(** The bytes of the header of a Logger, on an empty buffer. *)
Definition header_of (l : Logger) (t : Time) (file : string) (line : Z) : list ascii :=
  default [] (formatHeader l [] t file line).

(** The result of the close of [rollFile]; [None] too when the package has
    no current file. *)
Definition closed (st : State) : option error :=
  match currentOutFile st with
  | Some f => (Close f (os st)).1
  | None => None
  end.

(** The buffer after a step of a rotation that may have failed. *)
Definition noted (msg : string) (r : option error) (b : list ascii) : list ascii :=
  match r with
  | Some e => append_warning b (msg +:+ Error e)
  | None => b
  end.

Definition close_failed : string :=
  "[XXX] ARALOGGER ERROR: Close current output file failed, ".

Definition roll_failed : string :=
  "[XXX] ARALOGGER ERROR: Rolling file failed, ".


(** *** One Logger on [ara.log], and a file with a line at the fallback name *)

(** Three minutes past noon, to the second. *)
Definition noon_0300 : Time :=
  {| Year := 2009; Month := 1; Day := 23; Hour := 12; Minute := 3; Second := 0;
     Nanosecond := 0; Unix := 1232712180 |}.

Definition older_line : list ascii := bytes "older line" ++ [newline].

Definition with_old_fallback : State :=
  {| os := {| dir := <[ "ara.log"%string := 0%nat ]> {[ fallback_name := 1%nat ]};
              data := [[]; older_line]; files := []; calls := [] |};
     currentOutFile := None |}.

Definition old_fallback_logger : (error + Logger) * State :=
  NewRollFileLogger "ara.log" MiB LstdFlags with_old_fallback.

(** The call that crosses the threshold, on the minute. *)
Definition roll_onto_old : option error * Logger * State :=
  returned (output (after_bytes MiB (made old_fallback_logger)) 2 "hello"
              noon_0300 no_caller old_fallback_logger.2).

(** *** Facts on decimal notation *)

Lemma digit_value_digit d : 0 <= d <= 9 -> digit_value (digit d) = d.
Proof.
  intros H. unfold digit_value, digit.
  rewrite N_ascii_embedding.
  - rewrite Z.mod_small by lia. lia.
  - rewrite Z.mod_small by lia. lia.
Qed.

Lemma digit_0 : digit 0 = "0"%char.
Proof. reflexivity. Qed.

Lemma decimal_fuel_small fuel n : n < 10 -> decimal_fuel (S fuel) n = [digit n].
Proof. intros H. simpl. destruct (Z.ltb_spec n 10); [done | lia]. Qed.

Lemma decimal_fuel_enough f1 : forall f2 n,
  0 <= n < 10 ^ Z.of_nat (S f1) -> 0 <= n < 10 ^ Z.of_nat (S f2) ->
  decimal_fuel (S f1) n = decimal_fuel (S f2) n.
Proof.
  induction f1 as [|f1 IH]; intros f2 n H1 H2.
  - rewrite !decimal_fuel_small; [done | |]; simpl in H1; lia.
  - destruct (Z_lt_le_dec n 10) as [Hlt | Hge].
    { by rewrite !decimal_fuel_small. }
    destruct f2 as [|f2]; [simpl in H2; lia |].
    cbn [decimal_fuel]. destruct (Z.ltb_spec n 10); [lia |].
    f_equal. apply IH.
    + rewrite (Nat2Z.inj_succ (S f1)), Z.pow_succ_r in H1 by lia.
      split; [apply Z.div_pos; lia | apply Z.div_lt_upper_bound; lia].
    + rewrite (Nat2Z.inj_succ (S f2)), Z.pow_succ_r in H2 by lia.
      split; [apply Z.div_pos; lia | apply Z.div_lt_upper_bound; lia].
Qed.

Lemma log2_fuel_bound n : 0 <= n -> n < 10 ^ Z.of_nat (S (Z.to_nat (Z.log2 n))).
Proof.
  intros H.
  rewrite Nat2Z.inj_succ, Z2Nat.id by apply Z.log2_nonneg.
  destruct (Z.eq_dec n 0) as [-> | Hn]; [reflexivity |].
  assert (Hlt : n < 2 ^ Z.succ (Z.log2 n)) by (apply Z.log2_spec; lia).
  eapply Z.lt_le_trans; [exact Hlt |].
  apply Z.pow_le_mono_l. lia.
Qed.

Lemma decimal_small n : 0 <= n < 10 -> decimal n = [digit n].
Proof. intros H. unfold decimal. apply decimal_fuel_small. lia. Qed.

Lemma decimal_step n :
  10 <= n -> decimal n = decimal (n / 10) ++ [digit (n mod 10)].
Proof.
  intros H.
  assert (H10 : 0 < n / 10) by (apply Z.div_str_pos; lia).
  assert (Hlog : 0 < Z.log2 n) by (apply Z.log2_pos; lia).
  unfold decimal at 1.
  destruct (Z.to_nat (Z.log2 n)) as [|f] eqn:Ef; [lia |].
  cbn [decimal_fuel]. destruct (Z.ltb_spec n 10); [lia |].
  f_equal. unfold decimal.
  apply decimal_fuel_enough.
  - split; [lia |].
    pose proof (log2_fuel_bound n ltac:(lia)) as Hb.
    rewrite Ef in Hb.
    rewrite (Nat2Z.inj_succ (S f)), Z.pow_succ_r in Hb by lia.
    apply Z.div_lt_upper_bound; lia.
  - split; [lia |]. apply log2_fuel_bound. lia.
Qed.

(** Induction on a number along its decimal digits. *)
Lemma decimal_ind (P : Z -> Prop) :
  (forall n, 0 <= n < 10 -> P n) ->
  (forall n, 10 <= n -> P (n / 10) -> P n) ->
  forall n, 0 <= n -> P n.
Proof.
  intros Hsmall Hstep n Hn.
  cut (0 <= n -> P n); [auto |].
  apply (Z_lt_induction (fun n => 0 <= n -> P n)); [| done].
  clear n Hn. intros n IH Hn.
  destruct (Z_lt_le_dec n 10) as [Hlt | Hge].
  - apply Hsmall. lia.
  - assert (Hq : 0 <= n / 10) by (apply Z.div_pos; lia).
    apply Hstep; [done |]. apply IH; [| done].
    split; [done | apply Z.div_lt; lia].
Qed.

Lemma digitCount_small n : 0 <= n < 10 -> digitCount n = 1.
Proof. intros H. unfold digitCount. by rewrite decimal_small. Qed.

Lemma digitCount_step n : 10 <= n -> digitCount n = digitCount (n / 10) + 1.
Proof.
  intros H. unfold digitCount. rewrite decimal_step by done.
  rewrite length_app. simpl. lia.
Qed.

Lemma digitCount_pos n : 0 <= n -> 1 <= digitCount n.
Proof.
  intros H. pattern n. apply decimal_ind; [| | done]; clear n H.
  - intros n H. rewrite digitCount_small; lia.
  - intros n H IH. rewrite digitCount_step; lia.
Qed.

(** [digitCount n] is the number of digits the usual way: [n] lies between
    the two powers of ten. *)
Lemma digitCount_spec n :
  0 < n -> 10 ^ (digitCount n - 1) <= n < 10 ^ digitCount n.
Proof.
  intros H. assert (H0 : 0 <= n) by lia. revert H.
  pattern n. apply decimal_ind; [| | done]; clear n H0.
  - intros n H Hpos. rewrite digitCount_small by done. simpl. lia.
  - intros n H IH _.
    rewrite digitCount_step by done.
    assert (Hq : 0 < n / 10) by (apply Z.div_str_pos; lia).
    specialize (IH Hq).
    pose proof (digitCount_pos (n / 10) ltac:(lia)) as Hp.
    replace (digitCount (n / 10) + 1 - 1) with (Z.succ (digitCount (n / 10) - 1)) by lia.
    replace (digitCount (n / 10) + 1) with (Z.succ (digitCount (n / 10))) by lia.
    rewrite !Z.pow_succ_r by lia.
    pose proof (Z.div_mod n 10 ltac:(lia)) as Hdm.
    pose proof (Z.mod_pos_bound n 10 ltac:(lia)) as Hm.
    lia.
Qed.

Lemma decimal_value_snoc ds c :
  decimal_value (ds ++ [c]) = 10 * decimal_value ds + digit_value c.
Proof. unfold decimal_value. by rewrite fold_left_app. Qed.

Lemma decimal_value_decimal n : 0 <= n -> decimal_value (decimal n) = n.
Proof.
  intros H. pattern n. apply decimal_ind; [| | done]; clear n H.
  - intros n H. rewrite decimal_small by done.
    unfold decimal_value. simpl. rewrite digit_value_digit; lia.
  - intros n H IH. rewrite decimal_step, decimal_value_snoc, IH by done.
    pose proof (Z.mod_pos_bound n 10 ltac:(lia)) as Hm.
    rewrite digit_value_digit by lia.
    pose proof (Z.div_mod n 10 ltac:(lia)). lia.
Qed.

Lemma decimal_digits n : 0 <= n -> Forall is_digit (decimal n).
Proof.
  intros H. pattern n. apply decimal_ind; [| | done]; clear n H.
  - intros n H. rewrite decimal_small by done.
    constructor; [| constructor]. unfold is_digit. rewrite digit_value_digit; lia.
  - intros n H IH. rewrite decimal_step by done.
    apply Forall_app. split; [done |].
    pose proof (Z.mod_pos_bound n 10 ltac:(lia)) as Hm.
    constructor; [| constructor]. unfold is_digit. rewrite digit_value_digit; lia.
Qed.

(** No leading zero, but for the number zero itself. *)
Lemma decimal_head n : 0 < n -> exists c ds, decimal n = c :: ds /\ c <> "0"%char.
Proof.
  intros H. assert (H0 : 0 <= n) by lia. revert H.
  pattern n. apply decimal_ind; [| | done]; clear n H0.
  - intros n H Hpos. rewrite decimal_small by done.
    exists (digit n), []. split; [done |].
    intros E. apply (f_equal digit_value) in E.
    rewrite digit_value_digit in E by lia. vm_compute in E. lia.
  - intros n H IH _.
    assert (Hq : 0 < n / 10) by (apply Z.div_str_pos; lia).
    destruct (IH Hq) as (c & ds & E & Hc).
    rewrite decimal_step, E by done. by exists c, (ds ++ [digit (n mod 10)]).
Qed.

(** *** The loop of [itoa] *)

Lemma replicate_snoc {A} (n : nat) (x : A) : replicate (S n) x = replicate n x ++ [x].
Proof. induction n as [|n IH]; [done |]. simpl. by rewrite <- IH. Qed.

Lemma zero_padded_small w n :
  0 <= n < 10 -> zero_padded w n = replicate (Z.to_nat (w - 1)) "0"%char ++ [digit n].
Proof.
  intros H. unfold zero_padded. by rewrite digitCount_small, decimal_small.
Qed.

Lemma zero_padded_step w n :
  10 <= n -> zero_padded w n = zero_padded (w - 1) (n / 10) ++ [digit (n mod 10)].
Proof.
  intros H. unfold zero_padded.
  rewrite digitCount_step, decimal_step, <- app_assoc by done.
  do 2 f_equal. lia.
Qed.

Lemma length_zero_padded w n :
  0 <= n -> Z.of_nat (length (zero_padded w n)) = Z.max w (digitCount n).
Proof.
  intros H. unfold zero_padded. rewrite length_app, length_replicate.
  pose proof (digitCount_pos n H). unfold digitCount in *. lia.
Qed.

Lemma loop_out_step u wid :
  0 <= u -> 0 < u \/ 0 < wid ->
  loop_out u wid = loop_out (u / 10) (wid - 1) ++ [digit (u mod 10)].
Proof.
  intros Hu Hc. unfold loop_out.
  destruct (Z.eqb_spec u 0) as [-> | Hne].
  - change (0 / 10) with 0. change (0 mod 10) with 0. simpl.
    replace (Z.to_nat wid) with (S (Z.to_nat (wid - 1))) by lia.
    by rewrite replicate_snoc.
  - destruct (Z_lt_le_dec u 10) as [Hlt | Hge].
    + rewrite Z.div_small, Z.mod_small by lia. simpl.
      apply zero_padded_small. lia.
    + destruct (Z.eqb_spec (u / 10) 0) as [E | _].
      * assert (0 < u / 10) by (apply Z.div_str_pos; lia). lia.
      * by apply zero_padded_step.
Qed.

Lemma length_loop_out u wid :
  0 <= u ->
  Z.of_nat (length (loop_out u wid)) =
  if u =? 0 then Z.max wid 0 else Z.max wid (digitCount u).
Proof.
  intros H. unfold loop_out. destruct (Z.eqb_spec u 0).
  - rewrite length_replicate. lia.
  - by apply length_zero_padded.
Qed.

Lemma loop_out_nil u wid : 0 <= u -> u <= 0 -> wid <= 0 -> loop_out u wid = [].
Proof.
  intros H1 H2 H3. assert (u = 0) as -> by lia. unfold loop_out. simpl.
  by replace (Z.to_nat wid) with 0%nat by lia.
Qed.

Lemma wrap_int_id i : min_int <= i <= max_int -> wrap_int i = i.
Proof.
  unfold wrap_int, min_int, max_int. intros H.
  rewrite Z.mod_small; lia.
Qed.

(** The loop fills the array downwards from [bp] with [loop_out u wid],
    provided that much room is left below [bp]. *)
Lemma itoa_loop_fills bp : forall b u wid,
  0 <= u -> (bp <= length b)%nat ->
  min_int <= wid - Z.of_nat (length (loop_out u wid)) -> wid <= max_int ->
  (length (loop_out u wid) <= bp)%nat ->
  itoa_loop bp b u wid =
    Some ((bp - length (loop_out u wid))%nat,
          take (bp - length (loop_out u wid)) b ++ loop_out u wid ++ drop bp b).
Proof.
  induction bp as [|bp IH]; intros b u wid Hu Hb Hlo Hhi Hroom.
  - destruct (loop_out u wid) as [|c D] eqn:E; [| simpl in Hroom; lia].
    apply (f_equal (fun l => Z.of_nat (length l))) in E.
    rewrite length_loop_out in E by done. simpl in E.
    simpl. destruct (Z.ltb_spec 0 u) as [Hpos | _].
    + destruct (Z.eqb_spec u 0); [lia |].
      pose proof (digitCount_pos u Hu). lia.
    + destruct (Z.ltb_spec 0 wid) as [Hw | _].
      * destruct (u =? 0); lia.
      * simpl. by rewrite drop_0.
  - cbn [itoa_loop].
    destruct ((0 <? u) || (0 <? wid)) eqn:Ec.
    + assert (Hc : 0 < u \/ 0 < wid).
      { apply orb_true_iff in Ec. destruct Ec as [?%Z.ltb_lt | ?%Z.ltb_lt]; auto. }
      rewrite (loop_out_step u wid) in * by done.
      rewrite length_app in *. simpl in Hroom, Hlo.
      set (D := loop_out (u / 10) (wid - 1)) in *.
      rewrite wrap_int_id by (unfold min_int, max_int in *; lia).
      rewrite IH; fold D.
      * f_equal. f_equal; [simpl; lia |].
        replace (S bp - (length D + length [digit (u mod 10)]))%nat
          with (bp - length D)%nat by (simpl; lia).
        rewrite take_insert_ge by lia.
        rewrite <- !app_assoc. do 2 f_equal. simpl.
        rewrite drop_insert_ge by lia.
        rewrite Nat.sub_diag.
        destruct (drop bp b) as [|x tl] eqn:Ed.
        { apply (f_equal length) in Ed. rewrite length_drop in Ed. simpl in Ed. lia. }
        simpl. f_equal.
        change tl with (drop 1 (x :: tl)).
        rewrite <- Ed, drop_drop. f_equal. lia.
      * apply Z.div_pos; lia.
      * rewrite length_insert. lia.
      * lia.
      * lia.
      * lia.
    + apply orb_false_iff in Ec. destruct Ec as [H1%Z.ltb_ge H2%Z.ltb_ge].
      rewrite loop_out_nil by done. cbn [length app].
      by rewrite Nat.sub_0_r, take_drop.
Qed.

(** With less room than that, the loop runs off the array. *)
Lemma itoa_loop_panics bp : forall b u wid,
  0 <= u ->
  min_int <= wid - Z.of_nat bp - 1 -> wid <= max_int ->
  (bp < length (loop_out u wid))%nat ->
  itoa_loop bp b u wid = None.
Proof.
  induction bp as [|bp IH]; intros b u wid Hu Hlo Hhi Hroom.
  - simpl. destruct ((0 <? u) || (0 <? wid)) eqn:Ec; [done |].
    apply orb_false_iff in Ec. destruct Ec as [H1%Z.ltb_ge H2%Z.ltb_ge].
    rewrite loop_out_nil in Hroom by done. simpl in Hroom. lia.
  - cbn [itoa_loop].
    destruct ((0 <? u) || (0 <? wid)) eqn:Ec.
    + assert (Hc : 0 < u \/ 0 < wid).
      { apply orb_true_iff in Ec. destruct Ec as [?%Z.ltb_lt | ?%Z.ltb_lt]; auto. }
      rewrite (loop_out_step u wid), length_app in Hroom by done. simpl in Hroom.
      rewrite wrap_int_id by (unfold min_int, max_int in *; lia).
      apply IH; [apply Z.div_pos; lia | lia | lia | lia].
    + apply orb_false_iff in Ec. destruct Ec as [H1%Z.ltb_ge H2%Z.ltb_ge].
      rewrite loop_out_nil in Hroom by done. simpl in Hroom. lia.
Qed.

Lemma digitCount_int n : 0 <= n < 2 ^ 64 -> digitCount n <= 20.
Proof.
  intros H. destruct (Z.eq_dec n 0) as [-> | Hn]; [by vm_compute |].
  pose proof (digitCount_spec n ltac:(lia)) as [Hlo _].
  destruct (Z_le_gt_dec (digitCount n) 20) as [| Hgt]; [done |].
  assert (10 ^ 20 <= 10 ^ (digitCount n - 1)) by (apply Z.pow_le_mono_r; lia).
  lia.
Qed.

Lemma to_uint_id n : 0 <= n < 2 ^ 64 -> to_uint n = n.
Proof. intros H. unfold to_uint. by rewrite Z.mod_small. Qed.

(** What [itoa] appends for any [int]: the unsigned value of it, padded. *)
Lemma itoa_to_uint buf i w :
  w <= 32 -> min_int <= w - digitCount (to_uint i) ->
  itoa buf i w = Some (buf ++ zero_padded w (to_uint i)).
Proof.
  intros Hw Hlo. unfold itoa.
  assert (Hn : 0 <= to_uint i < 2 ^ 64) by (apply Z.mod_pos_bound; lia).
  set (n := to_uint i) in *.
  destruct ((n =? 0) && (w <=? 1)) eqn:E0.
  - apply andb_true_iff in E0. destruct E0 as [E%Z.eqb_eq Hw1%Z.leb_le].
    rewrite E. unfold zero_padded.
    change (digitCount 0) with 1. change (decimal 0) with ["0"%char].
    by replace (Z.to_nat (w - 1)) with 0%nat by lia.
  - pose proof (digitCount_int n ltac:(lia)) as Hdc.
    pose proof (digitCount_pos n ltac:(lia)) as Hdp.
    assert (Hout : loop_out n w = zero_padded w n).
    { unfold loop_out. destruct (Z.eqb_spec n 0) as [E | _]; [| done].
      rewrite E in *. simpl in E0. apply Z.leb_gt in E0.
      unfold zero_padded. change (digitCount 0) with 1. change (decimal 0) with ["0"%char].
      replace (Z.to_nat w) with (S (Z.to_nat (w - 1))) by lia.
      apply replicate_snoc. }
    assert (Hlen : Z.of_nat (length (loop_out n w)) = Z.max w (digitCount n)).
    { rewrite Hout. apply length_zero_padded. lia. }
    rewrite itoa_loop_fills.
    + rewrite Hout in *. do 2 f_equal.
      rewrite drop_app_length'; [| rewrite length_take, length_replicate; lia].
      rewrite (drop_ge (replicate 32 zero)) by (rewrite length_replicate; lia).
      by rewrite app_nil_r.
    + lia.
    + rewrite length_replicate. lia.
    + unfold min_int in *. lia.
    + unfold max_int. lia.
    + lia.
Qed.

Lemma itoa_zero_padded buf n w :
  0 <= n < 2 ^ 63 -> w <= 32 -> min_int <= w - digitCount n ->
  itoa buf n w = Some (buf ++ zero_padded w n).
Proof.
  intros Hn Hw Hlo.
  rewrite <- (to_uint_id n) at 2 by lia.
  apply itoa_to_uint; [done |]. by rewrite to_uint_id by lia.
Qed.

(** A width beyond the 32 bytes of the array makes [itoa] panic. *)
Lemma itoa_wide_panics buf n w :
  0 <= n < 2 ^ 63 -> 32 < w <= max_int -> itoa buf n w = None.
Proof.
  intros Hn Hw. unfold itoa.
  rewrite to_uint_id by lia.
  destruct (Z.leb_spec w 1); [lia |]. rewrite andb_false_r.
  rewrite itoa_loop_panics; [done | lia | unfold min_int; lia | lia |].
  apply Nat2Z.inj_lt. rewrite length_loop_out by lia.
  destruct (n =? 0); lia.
Qed.

(** *** The claims on [itoa] *)

(** C8, as the code has it.  For every non-negative [n] and every width [w]
    that the 32-byte scratch array of [itoa] holds ([w <= 32]) and whose
    countdown, one per digit, stays an [int] ([min_int <= w - digitCount n]),
    [itoa] appends the decimal digits of [n] with zeros on their left:
    [max w (digitCount n)] digits when [1 <= w], and the decimal digits of
    [n] alone, not padded, when [w <= 0]. *)
Theorem itoa_appends_padded_decimal buf n w :
  0 <= n < 2 ^ 63 -> w <= 32 -> min_int <= w - digitCount n ->
  exists ds,
    itoa buf n w = Some (buf ++ ds) /\
    ds = replicate (Z.to_nat (w - digitCount n)) "0"%char ++ decimal n /\
    Forall is_digit ds /\
    decimal_value ds = n /\
    (1 <= w -> Z.of_nat (length ds) = Z.max w (digitCount n)) /\
    (w <= 0 -> ds = decimal n).
Proof.
  intros Hn Hw Hlo. exists (zero_padded w n).
  split; [by apply itoa_zero_padded |].
  split; [done |].
  assert (Hz : forall k, Forall is_digit (replicate k "0"%char)).
  { intros k. apply Forall_replicate. by vm_compute. }
  assert (Hv : forall k ds, decimal_value (replicate k "0"%char ++ ds) = decimal_value ds).
  { intros k ds. unfold decimal_value. rewrite fold_left_app. f_equal.
    induction k as [|k IH]; [done |]. rewrite replicate_snoc, fold_left_app, IH. done. }
  repeat split.
  - apply Forall_app. split; [apply Hz | apply decimal_digits; lia].
  - unfold zero_padded. rewrite Hv. apply decimal_value_decimal. lia.
  - intros _. apply length_zero_padded. lia.
  - intros H0. unfold zero_padded.
    pose proof (digitCount_pos n ltac:(lia)).
    by replace (Z.to_nat (w - digitCount n)) with 0%nat by lia.
Qed.

Lemma itoa_appends_padded_decimal_witness :
  exists ds,
    itoa (bytes "line ") 23 (-1) = Some (bytes "line " ++ ds) /\
    ds = replicate (Z.to_nat (-1 - digitCount 23)) "0"%char ++ decimal 23 /\
    Forall is_digit ds /\
    decimal_value ds = 23 /\
    (1 <= -1 -> Z.of_nat (length ds) = Z.max (-1) (digitCount 23)) /\
    (-1 <= 0 -> ds = decimal 23).
Proof.
  apply (itoa_appends_padded_decimal (bytes "line ") 23 (-1)).
  - lia.
  - lia.
  - vm_compute. discriminate.
Defined.

(** C8 as it is stated fails at a width of 33: the store below the array
    is a run-time panic, and [itoa] appends nothing. *)
Lemma itoa_width_33_panics :
  0 <= 7 < 2 ^ 63 /\ itoa [] 7 33 = None /\
  ~ (exists ds, itoa [] 7 33 = Some ([] ++ ds) /\
                Z.of_nat (length ds) = Z.max 33 (digitCount 7)).
Proof.
  split; [lia |]. split; [by vm_compute |].
  intros (ds & H & _). vm_compute in H. discriminate.
Qed.

(** The countdown of a width near the least [int] wraps to the greatest,
    and the loop then pads until it runs off the array. *)
Example itoa_least_width_panics : itoa [] 7 min_int = None.
Proof. by vm_compute. Qed.

Example itoa_examples :
  itoa [] 0 (-1) = Some (bytes "0") /\
  itoa [] 1234 (-1) = Some (bytes "1234") /\
  itoa [] 7 2 = Some (bytes "07") /\
  itoa [] 2009 4 = Some (bytes "2009") /\
  itoa [] 123123 6 = Some (bytes "123123") /\
  itoa [] 12345 4 = Some (bytes "12345").
Proof. by vm_compute. Qed.

(** ** The flag word *)

Lemma flag_any_bit f k : 0 <= k -> flag_any f (2 ^ k) = Z.testbit f k.
Proof.
  intros Hk. unfold flag_any.
  destruct (Z.eqb_spec (Z.land f (2 ^ k)) 0) as [E | E]; simpl.
  - apply (f_equal (fun x => Z.testbit x k)) in E.
    rewrite Z.land_spec, Z.pow2_bits_true, andb_true_r, Z.bits_0 in E by done.
    by rewrite E.
  - destruct (Z.testbit f k) eqn:Eb; [done |].
    exfalso. apply E. apply Z.bits_inj'. intros n Hn.
    rewrite Z.land_spec, Z.bits_0, Z.pow2_bits_eqb by done.
    destruct (Z.eqb_spec k n) as [<- | _]; [by rewrite Eb | apply andb_false_r].
Qed.

Lemma flag_any_lor f a b : flag_any f (Z.lor a b) = flag_any f a || flag_any f b.
Proof.
  unfold flag_any. rewrite Z.land_lor_distr_r.
  destruct (Z.eqb_spec (Z.land f a) 0) as [Ea | Ea];
    destruct (Z.eqb_spec (Z.land f b) 0) as [Eb | Eb]; simpl;
    destruct (Z.eqb_spec (Z.lor (Z.land f a) (Z.land f b)) 0) as [E | E];
    try done; exfalso.
  - apply E. apply Z.lor_eq_0_iff. done.
  - apply Z.lor_eq_0_iff in E. tauto.
  - apply Z.lor_eq_0_iff in E. tauto.
  - apply Z.lor_eq_0_iff in E. tauto.
Qed.

Lemma flag_Ldate f : flag_any f Ldate = has_Date f.
Proof. apply (flag_any_bit f 0). lia. Qed.

Lemma flag_Ltime f : flag_any f Ltime = has_Time f.
Proof. apply (flag_any_bit f 1). lia. Qed.

Lemma flag_Lmicroseconds f : flag_any f Lmicroseconds = has_Microseconds f.
Proof. apply (flag_any_bit f 2). lia. Qed.

Lemma flag_Llongfile f : flag_any f Llongfile = has_LongFile f.
Proof. apply (flag_any_bit f 3). lia. Qed.

Lemma flag_Lshortfile f : flag_any f Lshortfile = has_ShortFile f.
Proof. apply (flag_any_bit f 4). lia. Qed.

(** ** formatHeader *)

(** A number below a power of ten has no more digits than the exponent. *)
Lemma digitCount_below n k : 0 <= n < 10 ^ k -> 1 <= k -> digitCount n <= k.
Proof.
  intros Hn Hk. destruct (Z.eq_dec n 0) as [-> | Hne]; [by vm_compute |].
  pose proof (digitCount_spec n ltac:(lia)) as [Hlo _].
  destruct (Z_le_gt_dec (digitCount n) k) as [| Hgt]; [done |].
  assert (10 ^ k <= 10 ^ (digitCount n - 1)) by (apply Z.pow_le_mono_r; lia).
  lia.
Qed.

(** [itoa] at the widths of [formatHeader] never panics. *)
Lemma itoa_header buf i w :
  -1 <= w <= 6 -> itoa buf i w = Some (buf ++ zero_padded w (to_uint i)).
Proof.
  intros Hw. apply itoa_to_uint; [lia |].
  assert (Hn : 0 <= to_uint i < 2 ^ 64) by (apply Z.mod_pos_bound; lia).
  pose proof (digitCount_int _ Hn). unfold min_int. lia.
Qed.

Lemma itoa_field buf n w :
  0 <= n < 2 ^ 63 -> -1 <= w <= 6 -> itoa buf n w = Some (buf ++ zero_padded w n).
Proof. intros Hn Hw. rewrite itoa_header by done. by rewrite to_uint_id by lia. Qed.

Lemma zero_padded_unpadded n : 0 <= n -> zero_padded (-1) n = decimal n.
Proof.
  intros H. unfold zero_padded. pose proof (digitCount_pos n H).
  by replace (Z.to_nat (-1 - digitCount n)) with 0%nat by lia.
Qed.

(** [formatHeader] returns for every input: none of its calls of [itoa] can
    run off the array. *)
Lemma formatHeader_total l buf t file line :
  is_Some (formatHeader l buf t file line).
Proof.
  unfold formatHeader.
  destruct (flag_any (flag l) (Z.lor Ldate (Z.lor Ltime Lmicroseconds))),
    (flag_any (flag l) Ldate), (flag_any (flag l) (Z.lor Ltime Lmicroseconds)),
    (flag_any (flag l) Lmicroseconds), (flag_any (flag l) (Z.lor Lshortfile Llongfile)),
    (flag_any (flag l) Lshortfile);
    repeat (cbn [mbind option_bind]; rewrite itoa_header by lia);
    cbn [mbind option_bind]; eauto.
Qed.

Lemma get_last s : String.get (String.length s - 1) s = last (bytes s).
Proof.
  induction s as [|c s IH]; [done |].
  cbn [String.length]. rewrite Nat.sub_succ, Nat.sub_0_r.
  destruct s as [|c' s']; [done |].
  cbn [String.length String.get] in *.
  rewrite Nat.sub_succ, Nat.sub_0_r in IH. rewrite IH. done.
Qed.

Lemma nonempty_length s : (0 <? Z.of_nat (String.length s)) = negb (String.eqb s "").
Proof. by destruct s. Qed.

Section Template.
Variable l : Logger.
Variable t : Time.
Variable file : string.
Variable line : Z.
Hypothesis time_ok : valid_time t.
Hypothesis line_ok : 0 <= line < 2 ^ 63.

(** The header that [formatHeader] appends is the template of the
    specification, field by field. *)
Lemma formatHeader_template buf :
  formatHeader l buf t file line =
    Some (buf ++ header_template (prefix l) (flag l) t (shown_file (flag l) file) line).
Proof.
  destruct time_ok as (Hy & Hmo & Hd & Hh & Hmi & Hs & Hn).
  assert (Hq : Nanosecond t ÷ 1000 = Nanosecond t / 1000)
    by (apply Z.quot_div_nonneg; lia).
  assert (Hus : 0 <= Nanosecond t / 1000 < 2 ^ 63).
  { split; [apply Z.div_pos; lia | apply Z.div_lt_upper_bound; lia]. }
  unfold formatHeader, header_template, shown_file, date_field, time_field, file_field.
  rewrite !flag_any_lor, flag_Ldate, flag_Ltime, flag_Lmicroseconds,
    flag_Llongfile, flag_Lshortfile, Hq.
  destruct (has_Date (flag l)), (has_Time (flag l)), (has_Microseconds (flag l)),
    (has_ShortFile (flag l)), (has_LongFile (flag l));
    cbn [orb mbind option_bind];
    repeat (rewrite itoa_field by lia; cbn [mbind option_bind]);
    rewrite ?zero_padded_unpadded by lia;
    f_equal; rewrite <- ?app_assoc; cbn [bytes list_ascii_of_string app];
    rewrite ?app_nil_r; reflexivity.
Qed.

(** The lines of [output] that build the buffer give the line of the
    specification. *)
Lemma format_line_template s :
  format_line l t file line s =
    Some (line_template (prefix l) (flag l) t (shown_file (flag l) file) line s).
Proof.
  unfold format_line, line_template, ends_in_newline.
  rewrite formatHeader_template. cbn [mbind option_bind].
  rewrite get_last, nonempty_length, app_nil_l.
  destruct (negb (s =? "")%string && negb _); [| by rewrite app_nil_r].
  by rewrite <- app_assoc.
Qed.
End Template.

(** A message that is not empty leaves a line that ends in a newline; a
    message that ends in one gets no second one. *)
Lemma line_template_terminated pre f t shown line msg :
  msg <> EmptyString ->
  last (line_template pre f t shown line msg) = Some newline.
Proof.
  intros Hne. unfold line_template, ends_in_newline.
  destruct (String.eqb_spec msg "") as [| _]; [done |]. simpl.
  destruct (last (bytes msg)) as [c|] eqn:El.
  - destruct (Ascii.eqb_spec c newline) as [-> | _]; simpl.
    + by rewrite app_nil_r, last_app, El.
    + by rewrite !last_app.
  - destruct msg; [done | discriminate (f_equal (@length ascii) (proj1 (last_None _) El))].
Qed.

(** ** The operating system's calls *)

Lemma Write_calls f b w :
  calls (Write f b w).2 = calls w ++ [CallWrite f b (Write f b w).1].
Proof.
  unfold Write. destruct (files w !! f) as [fo|]; [destruct (f_closed fo) |]; done.
Qed.

Lemma Write_open f b w :
  is_open f w = true -> (Write f b w).1 = None.
Proof.
  unfold is_open, Write. destruct (files w !! f) as [fo|]; [| done].
  by destruct (f_closed fo).
Qed.

(** A write through an open handle puts the bytes at the end of its file. *)
Lemma Write_appends f b w :
  is_open f w = true ->
  (Write f b w).1 = None /\
  file_content_of f (Write f b w).2 = (fun old => old ++ b) <$> file_content_of f w.
Proof.
  unfold is_open, Write, file_content_of.
  destruct (files w !! f) as [fo|] eqn:E; [| done].
  destruct (f_closed fo); [done |]. intros _. cbn. rewrite E.
  split; [done |]. apply list_lookup_alter_eq.
Qed.

(** *** The claim on the output line *)

(** C4, as the code has it.  For every Logger (flag word and prefix), valid
    time, caller file and line and message, the buffer that one call of
    [output] builds is [<prefix><date ><time[.micros] ><file:line: ><message>],
    each field there exactly when its options are set and in this order,
    followed by a newline exactly when the message is not empty and does
    not already end in one; a Logger without a path hands exactly these
    bytes to one [Write] of its sink.  With the flag [Ltime], no prefix and
    the time 12:03:04, the message "hello" gives "12:03:04 hello\n" and the
    empty message gives "12:03:04 " with no newline. *)
Theorem output_line_template l calldepth s now Caller st :
  valid_time now ->
  0 <= (caller_info l calldepth Caller).2 < 2 ^ 63 ->
  let file := (caller_info l calldepth Caller).1 in
  let line := (caller_info l calldepth Caller).2 in
  let text := line_template (prefix l) (flag l) now (shown_file (flag l) file) line s in
  format_line l now file line s = Some text /\
  (s <> EmptyString -> last text = Some newline) /\
  (path l = EmptyString ->
   exists err w',
     output l calldepth s now Caller st =
       Some (err, set_buf l text, {| os := w'; currentOutFile := currentOutFile st |}) /\
     calls w' = calls (os st) ++ [CallWrite (out l) text err] /\
     (is_open (out l) (os st) = true -> err = None)) /\
  format_line (New 0%nat "" Ltime) noon_0304 "" 0 "hello"
    = Some (bytes "12:03:04 hello" ++ [newline]) /\
  format_line (New 0%nat "" Ltime) noon_0304 "" 0 "" = Some (bytes "12:03:04 ").
Proof.
  intros Ht Hline file line text.
  assert (Hf : format_line l now file line s = Some text)
    by (by apply format_line_template).
  split; [done |].
  split; [apply line_template_terminated |].
  split; [| split; by vm_compute].
  intros Hp. unfold output.
  destruct (caller_info l calldepth Caller) as [file' line'] eqn:Ec.
  cbn [fst snd] in *. subst file line. rewrite Hf. cbn [mbind option_bind].
  replace (path (set_buf l text)) with (path l) by done. rewrite Hp.
  cbn [String.length Z.of_nat Z.ltb Z.compare].
  cbn [out buf set_buf].
  destruct (Write (out l) text (os st)) as [err w'] eqn:Ew.
  exists err, w'. split; [done |].
  pose proof (Write_calls (out l) text (os st)) as Hc.
  pose proof (Write_open (out l) text (os st)) as Ho.
  rewrite Ew in Hc, Ho. done.
Qed.

Lemma Close_calls f w :
  calls (Close f w).2 = calls w ++ [CallClose f (Close f w).1].
Proof.
  unfold Close. destruct (files w !! f) as [fo|]; [destruct (f_closed fo) |]; done.
Qed.

Lemma Rename_calls old new w :
  calls (Rename old new w).2 = calls w ++ [CallRename old new (Rename old new w).1].
Proof.
  unfold Rename. destruct (has_nul old || has_nul new); [done |].
  destruct (dir w !! old); done.
Qed.

Lemma OpenFile_calls name flg perm w :
  calls (OpenFile name flg perm w).2 =
    calls w ++ [CallOpen name flg perm (OpenFile name flg perm w).1].
Proof.
  unfold OpenFile. destruct (dir w !! name); [done |].
  destruct (has_nul name || (Z.land flg O_CREATE =? 0)); done.
Qed.

(** Without [O_CREATE], [OpenFile] succeeds exactly on the paths that name
    a file, and leaves the directory and the file contents as they are. *)
Lemma OpenFile_no_create name flg perm w :
  Z.land flg O_CREATE = 0 ->
  dir (OpenFile name flg perm w).2 = dir w /\
  data (OpenFile name flg perm w).2 = data w /\
  (dir w !! name = None ->
   OpenFile name flg perm w =
     (inl (PathError "open" name (absent name)),
      log_call (CallOpen name flg perm (inl (PathError "open" name (absent name)))) w)) /\
  (forall ino, dir w !! name = Some ino ->
   (OpenFile name flg perm w).1 = inr (length (files w)) /\
   files (OpenFile name flg perm w).2 =
     files w ++ [{| f_name := name; f_inode := ino; f_closed := false |}]).
Proof.
  intros Hf. unfold OpenFile. rewrite Hf, orb_true_r.
  destruct (dir w !! name) as [ino|] eqn:E; simpl.
  - split; [done |]. split; [done |]. split; [done |].
    intros ino' [= <-]. done.
  - done.
Qed.

Lemma append_wronly_no_create : Z.land (Z.lor O_APPEND O_WRONLY) O_CREATE = 0.
Proof. reflexivity. Qed.

(** ** Construction *)

(** C10.  [NewRollFileLogger] and [NewFileLogger] call [os.OpenFile] on the
    given path with the flags [O_APPEND|O_WRONLY], which do not have
    [O_CREATE]: the call is the only one they make, it never changes which
    paths name a file nor any file's content, and at a path that names no
    file both return the error of the open ("no such file or directory",
    or "invalid argument" for a path that holds a NUL byte) and no Logger,
    leaving the package variable as it was. *)
Theorem NewRollFileLogger_never_creates name maxsize flg st :
  Z.land (Z.lor O_APPEND O_WRONLY) O_CREATE = 0 /\
  (exists r,
     calls (os (NewRollFileLogger name maxsize flg st).2) =
       calls (os st) ++ [CallOpen name (Z.lor O_APPEND O_WRONLY) 384 r]) /\
  dir (os (NewRollFileLogger name maxsize flg st).2) = dir (os st) /\
  data (os (NewRollFileLogger name maxsize flg st).2) = data (os st) /\
  NewFileLogger name flg st = NewRollFileLogger name (1024 * 1024 * 10) flg st /\
  (dir (os st) !! name = None ->
   exists err,
     err = PathError "open" name (if has_nul name then EINVAL else ENOENT) /\
     (NewRollFileLogger name maxsize flg st).1 = inl err /\
     (NewFileLogger name flg st).1 = inl err /\
     currentOutFile (NewRollFileLogger name maxsize flg st).2 = currentOutFile st /\
     files (os (NewRollFileLogger name maxsize flg st).2) = files (os st) /\
     file_content name (os (NewRollFileLogger name maxsize flg st).2) = None).
Proof.
  pose proof append_wronly_no_create as Hnc.
  pose proof (OpenFile_calls name (Z.lor O_APPEND O_WRONLY) 384 (os st)) as Hc.
  destruct (OpenFile_no_create name (Z.lor O_APPEND O_WRONLY) 384 (os st) Hnc)
    as (Hdir & Hdata & Habs & _).
  split; [done |].
  unfold NewFileLogger, NewRollFileLogger.
  destruct (OpenFile name (Z.lor O_APPEND O_WRONLY) 384 (os st)) as [[err | f] w] eqn:Eo;
    cbn [fst snd] in *.
  - repeat split; try done; [by eexists |].
    intros Hn. specialize (Habs Hn). injection Habs as -> ->.
    eexists. repeat split; try done.
    unfold file_content. cbn [os dir log_call]. by rewrite Hn.
  - repeat split; try done; [by eexists |].
    intros Hn. specialize (Habs Hn). discriminate.
Qed.

Lemma NewRollFileLogger_never_creates_witness :
  exists err,
    err = PathError "open" "ara.log" ENOENT /\
    (NewRollFileLogger "ara.log" 0 LstdFlags one_stream).1 = inl err /\
    (NewFileLogger "ara.log" LstdFlags one_stream).1 = inl err /\
    currentOutFile (NewRollFileLogger "ara.log" 0 LstdFlags one_stream).2 = None /\
    files (os (NewRollFileLogger "ara.log" 0 LstdFlags one_stream).2) = files (os one_stream) /\
    file_content "ara.log" (os (NewRollFileLogger "ara.log" 0 LstdFlags one_stream).2) = None.
Proof.
  destruct (NewRollFileLogger_never_creates "ara.log" 0 LstdFlags one_stream)
    as (_ & _ & _ & _ & _ & H).
  apply H. reflexivity.
Defined.

(** ** rollFile *)

Lemma Close_frame f w :
  dir (Close f w).2 = dir w /\ data (Close f w).2 = data w /\
  length (files (Close f w).2) = length (files w).
Proof.
  unfold Close. destruct (files w !! f) as [fo|]; [destruct (f_closed fo) |];
    cbn; rewrite ?length_insert; done.
Qed.

Lemma Close_closes f w : is_open f (Close f w).2 = false.
Proof.
  unfold Close, is_open. destruct (files w !! f) as [fo|] eqn:E.
  - destruct (f_closed fo) eqn:Ec; cbn.
    + by rewrite E, Ec.
    + rewrite list_lookup_insert_eq; [done |]. by eapply lookup_lt_Some.
  - cbn. by rewrite E.
Qed.

Lemma Close_other f g w : f <> g -> is_open g (Close f w).2 = is_open g w.
Proof.
  intros Hne. unfold Close, is_open.
  destruct (files w !! f) as [fo|]; [destruct (f_closed fo) |]; cbn; try done.
  by rewrite list_lookup_insert_ne.
Qed.

Lemma Rename_frame old new w :
  data (Rename old new w).2 = data w /\ files (Rename old new w).2 = files w.
Proof.
  unfold Rename. destruct (has_nul old || has_nul new); [done |].
  destruct (dir w !! old); done.
Qed.



Lemma counted_exact l :
  0 <= size l -> size l + Z.of_nat (length (buf l)) < 2 ^ 64 ->
  counted l = size l + Z.of_nat (length (buf l)).
Proof. intros H1 H2. unfold counted. apply to_uint_id. lia. Qed.

Lemma warn_fields l msg e :
  prefix (warn l msg e) = prefix l /\ flag (warn l msg e) = flag l /\
  out (warn l msg e) = out l /\ size (warn l msg e) = size l /\
  path (warn l msg e) = path l /\ maxsize (warn l msg e) = maxsize l /\
  buf (warn l msg e) = append_warning (buf l) (msg +:+ Error e).
Proof. done. Qed.

(** Below the threshold [rollFile] only counts. *)
Lemma rollFile_noop l now st :
  counted l <= maxsize l -> rollFile l now st = (None, set_size l (counted l), st).
Proof.
  intros H. unfold rollFile. cbn [size set_size maxsize].
  fold (counted l). destruct (Z.ltb_spec (maxsize l) (counted l)); [lia | done].
Qed.

(** The closing lines of a rotation: at most one call, which leaves the
    directory, the contents and the number of file objects as they were,
    and the Logger as it was but for its buffer. *)
Lemma close_current_spec l st :
  exists l1 closes,
    close_current l st = (l1, after_close st) /\
    calls (after_close st) = calls (os st) ++ closes /\
    closes = match currentOutFile st with
             | Some f => [CallClose f (Close f (os st)).1]
             | None => []
             end /\
    length (files (after_close st)) = length (files (os st)) /\
    data (after_close st) = data (os st) /\
    prefix l1 = prefix l /\ flag l1 = flag l /\ out l1 = out l /\
    path l1 = path l /\ maxsize l1 = maxsize l /\
    buf l1 = noted close_failed (closed st) (buf l).
Proof.
  unfold close_current, after_close, closed. destruct (currentOutFile st) as [f|].
  - pose proof (Close_calls f (os st)) as Hc.
    pose proof (Close_frame f (os st)) as (_ & Hd & Hlen).
    destruct (Close f (os st)) as [[e|] w]; cbn [fst snd] in *.
    + do 2 eexists. split; [done |]. repeat split; done.
    + do 2 eexists. split; [done |]. repeat split; done.
  - exists l, []. rewrite app_nil_r. repeat split; done.
Qed.

(** The calls of a rotation: a close of the package's current file if there
    is one, the rename, and the open, in this order and nothing else. *)
Lemma rollFile_calls l now st :
  maxsize l < counted l ->
  exists closes ro,
    calls (os (rollFile l now st).2) =
      calls (os st) ++ closes ++
        [CallRename (path l) (rolled_name (path l) now) (renamed l now st);
         CallOpen (opened_path l now (renamed l now st))
           (Z.lor O_APPEND O_WRONLY) 384 ro] /\
    closes = match currentOutFile st with
             | Some f => [CallClose f (Close f (os st)).1]
             | None => []
             end /\
    (rollFile l now st).1.1 = match ro with inl e => Some e | inr _ => None end /\
    match ro with
    | inl e =>
        out (rollFile l now st).1.2 = out l /\
        currentOutFile (rollFile l now st).2 = currentOutFile st /\
        files (os (rollFile l now st).2) = files (after_close st)
    | inr f =>
        out (rollFile l now st).1.2 = f /\
        currentOutFile (rollFile l now st).2 = Some f /\
        f = length (files (os st)) /\
        is_open f (os (rollFile l now st).2) = true /\
        size (rollFile l now st).1.2 =
          to_uint (Z.of_nat (length (buf (rollFile l now st).1.2)))
    end /\
    prefix (rollFile l now st).1.2 = prefix l /\
    flag (rollFile l now st).1.2 = flag l /\
    path (rollFile l now st).1.2 = path l /\
    maxsize (rollFile l now st).1.2 = maxsize l /\
    buf (rollFile l now st).1.2 =
      noted roll_failed (renamed l now st) (noted close_failed (closed st) (buf l)).
Proof.
  intros H. unfold rollFile. cbn [size set_size maxsize].
  fold (counted l). destruct (Z.ltb_spec (maxsize l) (counted l)) as [_ | ?]; [| lia].
  set (l0 := set_size l (counted l)).
  destruct (close_current_spec l0 st)
    as (l1 & closes & -> & Hc1 & Hcl & Hlen1 & _ & Hp1 & Hfl1 & Ho1
        & Hpa1 & Hm1 & Hb1).
  change (prefix l0) with (prefix l) in Hp1. change (flag l0) with (flag l) in Hfl1.
  change (out l0) with (out l) in Ho1. change (path l0) with (path l) in Hpa1.
  change (maxsize l0) with (maxsize l) in Hm1. change (buf l0) with (buf l) in Hb1.
  rewrite Hpa1. unfold renamed.
  set (w1 := after_close st) in *.
  pose proof (Rename_calls (path l) (rolled_name (path l) now) w1) as Hc2.
  pose proof (Rename_frame (path l) (rolled_name (path l) now) w1) as (_ & Hf2).
  destruct (Rename (path l) (rolled_name (path l) now) w1) as [rn w2]; cbn [fst snd] in *.
  set (l2 := match rn with
             | Some err => warn l1 "[XXX] ARALOGGER ERROR: Rolling file failed, " err
             | None => l1 end).
  assert (Hl2 : prefix l2 = prefix l /\ flag l2 = flag l /\ out l2 = out l /\
                path l2 = path l /\ maxsize l2 = maxsize l /\
                buf l2 = noted roll_failed rn (noted close_failed (closed st) (buf l))).
  { subst l2. destruct rn as [e|]; repeat split; try done.
    cbn. by rewrite Hb1. }
  destruct Hl2 as (Hp2 & Hfl2 & Ho2 & Hpa2 & Hm2 & Hb2).
  exists closes.
  assert (Hstep :
    match rn with
    | Some err =>
        (warn l1 "[XXX] ARALOGGER ERROR: Rolling file failed, " err,
         path l +:+ intstring (Unix now), w2)
    | None => (l1, path l, w2)
    end = (l2, opened_path l now rn, w2)) by (subst l2; by destruct rn).
  rewrite Hstep. clear Hstep.
  pose proof (OpenFile_calls (opened_path l now rn) (Z.lor O_APPEND O_WRONLY) 384 w2) as Hc3.
  pose proof (OpenFile_no_create (opened_path l now rn) (Z.lor O_APPEND O_WRONLY) 384 w2
                append_wronly_no_create) as (_ & _ & Habs & Hpres).
  destruct (dir w2 !! opened_path l now rn) as [ino|] eqn:Ed.
  - destruct (Hpres ino eq_refl) as [Hr Hfiles].
    destruct (OpenFile (opened_path l now rn) (Z.lor O_APPEND O_WRONLY) 384 w2)
      as [ro w3]; cbn [fst snd] in *. subst ro.
    exists (inr (length (files w2))). cbn.
    rewrite Hc3, Hc2, Hc1, <- !app_assoc. cbn.
    repeat split; try done.
    + by rewrite Hf2, Hlen1.
    + unfold is_open. rewrite Hfiles, lookup_app_r, Nat.sub_diag by lia. done.
  - rewrite (Habs eq_refl) in *. cbn [fst snd] in *.
    exists (inl (PathError "open" (opened_path l now rn) (absent (opened_path l now rn)))). cbn.
    rewrite Hc2, Hc1, <- !app_assoc. cbn.
    repeat split; try done.
Qed.

Lemma calls_since_app w w' cs :
  calls w' = calls w ++ cs -> calls_since w w' = cs.
Proof. intros H. unfold calls_since. rewrite H. apply drop_app_length. Qed.

Lemma calls_since_refl w : calls_since w w = [].
Proof. unfold calls_since. apply drop_all. Qed.

(** *** The claims on the rotation *)

(** C5, where the code leaves it.  One Logger on [ara.log], its counter at
    the threshold, emits a line when the second of the minute is 0: the
    rotated name holds a NUL byte, the rename is refused, and [rollFile]
    opens the fallback name, where a file with a line is.  The rotation
    succeeds: the sink and the package's current file are the new handle 1
    on that file and the counter is the length of the pending buffer.  But
    the file is not a new one, [rollFile] cannot make one: after the write
    that follows, the pending buffer comes after the line the file held,
    and the log file is still at its path. *)
Theorem rotated_sink_is_an_old_file :
  let l := after_bytes MiB (made old_fallback_logger) in
  let l' := roll_onto_old.1.2 in
  let w' := os roll_onto_old.2 in
  file_content fallback_name (os old_fallback_logger.2) = Some older_line /\
  out l = 0%nat /\ size l = maxsize l /\
  roll_onto_old.1.1 = None /\
  calls_since (os old_fallback_logger.2) w' =
    [CallClose 0%nat None;
     CallRename "ara.log" (rolled_name "ara.log" noon_0300)
       (Some (LinkError "rename" "ara.log" (rolled_name "ara.log" noon_0300) EINVAL));
     CallOpen fallback_name (Z.lor O_APPEND O_WRONLY) 384 (inr 1%nat);
     CallWrite 1%nat (buf l') None] /\
  out l' = 1%nat /\ currentOutFile roll_onto_old.2 = Some 1%nat /\
  is_open 1%nat w' = true /\
  size l' = to_uint (Z.of_nat (length (buf l'))) /\
  buf l' =
    append_warning (bytes "2009/01/23 12:03:00 hello" ++ [newline])
      (roll_failed +:+
       Error (LinkError "rename" "ara.log" (rolled_name "ara.log" noon_0300) EINVAL)) /\
  file_content_of 1%nat w' = Some (older_line ++ buf l') /\
  file_content fallback_name w' = Some (older_line ++ buf l') /\
  file_content "ara.log" w' = Some [].
Proof. cbv zeta. repeat split; by vm_compute. Qed.

(** C3, where the code leaves it.  The call that crosses the threshold on
    the Logger of [ara.log] renames the file and then opens the original
    path, with the flags [O_APPEND|O_WRONLY] and no [O_CREATE]: the open
    fails, no file is at the path afterwards, and the call returns the
    error.  At the next call the rename fails, and the path opened is not
    the original one but the fallback name; nothing is created there
    either. *)
Theorem rotation_opens_without_creating :
  Z.land (Z.lor O_APPEND O_WRONLY) O_CREATE = 0 /\
  calls_since (os ara_logger.2) (os first_roll.2) =
    [CallClose 0%nat None;
     CallRename "ara.log" (rolled_name "ara.log" noon_0304) None;
     CallOpen "ara.log" (Z.lor O_APPEND O_WRONLY) 384
       (inl (PathError "open" "ara.log" ENOENT))] /\
  first_roll.1.1 = Some (PathError "open" "ara.log" ENOENT) /\
  dir (os first_roll.2) !! "ara.log"%string = None /\
  files (os first_roll.2) = [{| f_name := "ara.log"; f_inode := 0; f_closed := true |}] /\
  path first_roll.1.2 = "ara.log"%string /\
  maxsize first_roll.1.2 < size first_roll.1.2 /\
  calls_since (os first_roll.2) (os second_roll.2) =
    [CallClose 0%nat (Some (PathError "close" "ara.log" ErrClosed));
     CallRename "ara.log" (rolled_name "ara.log" noon_0304)
       (Some (LinkError "rename" "ara.log" (rolled_name "ara.log" noon_0304) ENOENT));
     CallOpen fallback_name (Z.lor O_APPEND O_WRONLY) 384
       (inl (PathError "open" fallback_name ENOENT))] /\
  fallback_name <> "ara.log"%string /\
  dir (os second_roll.2) !! "ara.log"%string = None /\
  dir (os second_roll.2) !! fallback_name = None.
Proof. repeat split; by vm_compute. Qed.

Lemma bytes_app a b : bytes (a +:+ b) = bytes a ++ bytes b.
Proof.
  unfold bytes. induction a as [|c a IH]; [done |].
  change (String c a +:+ b) with (String c (a +:+ b)).
  cbn [list_ascii_of_string app]. by f_equal.
Qed.

Lemma intstring_nonempty v : bytes (intstring v) <> [].
Proof.
  unfold intstring, bytes. rewrite list_ascii_of_string_of_list_ascii.
  unfold encoderune. by repeat case_match.
Qed.

(** The rotated name is never the path itself. *)
Lemma rolled_name_differs p now : p <> rolled_name p now.
Proof.
  intros E. apply (f_equal (fun s => length (bytes s))) in E.
  unfold rolled_name in E. rewrite !bytes_app, !length_app in E.
  pose proof (intstring_nonempty (Year now)) as Hy.
  destruct (bytes (intstring (Year now))); [done |]. cbn in E. lia.
Qed.


(** C2, at the call that crosses the threshold at 2009-01-23 12:03:04.  The
    rename succeeds and the rotated name is the path followed by the UTF-8
    encodings of the code points 2009, 1, 23, 12, 3 and 4, which is what
    Go's [string] of an integer gives: not the decimal numbers
    "20091231234".  At the next call the close and the rename fail, the
    pending buffer is what the two lines that note a failure make of it,
    with the text of each error, and the name used is the path followed by
    the encoding of U+FFFD, not the decimal Unix time "1232712184". *)
Theorem rolled_name_is_not_decimal :
  calls_since (os ara_logger.2) (os first_roll.2) =
    [CallClose 0%nat None;
     CallRename "ara.log"
       ("ara.log" +:+ string_of_list_ascii (map ascii_of_nat [223; 153; 1; 23; 12; 3; 4]%nat))
       None;
     CallOpen "ara.log" (Z.lor O_APPEND O_WRONLY) 384
       (inl (PathError "open" "ara.log" ENOENT))] /\
  decimal_rolled_name "ara.log" noon_0304 = "ara.log20091231234"%string /\
  rolled_name "ara.log" noon_0304 <> decimal_rolled_name "ara.log" noon_0304 /\
  calls_since (os first_roll.2) (os second_roll.2) =
    [CallClose 0%nat (Some (PathError "close" "ara.log" ErrClosed));
     CallRename "ara.log" (rolled_name "ara.log" noon_0304)
       (Some (LinkError "rename" "ara.log" (rolled_name "ara.log" noon_0304) ENOENT));
     CallOpen ("ara.log" +:+ string_of_list_ascii (map ascii_of_nat [239; 191; 189]%nat))
       (Z.lor O_APPEND O_WRONLY) 384
       (inl (PathError "open" fallback_name ENOENT))] /\
  decimal_unix_name "ara.log" noon_0304 = "ara.log1232712184"%string /\
  "ara.log" +:+ intstring (Unix noon_0304) <> decimal_unix_name "ara.log" noon_0304 /\
  buf second_roll.1.2 =
    append_warning
      (append_warning (bytes "2009/01/23 12:03:04 again" ++ [newline])
         "[XXX] ARALOGGER ERROR: Close current output file failed, close ara.log: file already closed")
      ("[XXX] ARALOGGER ERROR: Rolling file failed, "
       +:+ Error (LinkError "rename" "ara.log" (rolled_name "ara.log" noon_0304) ENOENT)).
Proof. repeat split; by vm_compute. Qed.

(** Whatever the time, the first byte after the path in the rotated name of
    a year from 128 on is no decimal digit. *)
Lemma rolled_name_year_byte p now :
  128 <= Year now <= 9999 ->
  exists c rest,
    bytes (rolled_name p now) = bytes p ++ c :: rest /\ ~ is_digit c.
Proof.
  intros Hy. unfold rolled_name. rewrite !bytes_app.
  unfold intstring at 1. unfold bytes at 2.
  rewrite list_ascii_of_string_of_list_ascii.
  assert (Hr : is_rune (Year now) = true).
  { unfold is_rune, maxRune.
    repeat (apply andb_true_intro; split); try (apply Z.leb_le; lia).
    apply negb_true_iff, andb_false_intro1, Z.leb_gt. lia. }
  rewrite Hr. unfold encoderune.
  destruct (Z.leb_spec (Year now) 127); [lia |].
  assert (Hhi : forall x, 0 <= x < 64 -> ~ is_digit (to_byte (Z.lor 192 x))).
  { intros x Hx. unfold is_digit, digit_value, to_byte.
    assert (Hb : 192 <= Z.lor 192 x < 256).
    { assert (Hl : Z.lor 192 x = 192 + x).
      { rewrite <- Z.add_nocarry_lor; [done |].
        apply Z.bits_inj'. intros n Hn. rewrite Z.land_spec, Z.bits_0.
        destruct (Z_lt_le_dec n 6).
        - replace (Z.testbit 192 n) with false; [done |].
          assert (n = 0 \/ n = 1 \/ n = 2 \/ n = 3 \/ n = 4 \/ n = 5) as Hc by lia.
          by destruct Hc as [-> | [-> | [-> | [-> | [-> | ->]]]]].
        - rewrite (Z.bits_above_log2 x n), andb_false_r; [done | lia |].
          destruct (Z.eq_dec x 0) as [-> | ?]; [simpl; lia |].
          apply Z.log2_lt_pow2; [lia |].
          eapply Z.lt_le_trans; [apply Hx |]. change 64 with (2 ^ 6).
          apply Z.pow_le_mono_r; lia. }
      lia. }
    rewrite Z.mod_small by lia.
    rewrite N_ascii_embedding by lia. lia. }
  destruct (Z.leb_spec (Year now) 2047).
  - eexists _, _. split; [cbn [app]; reflexivity |].
    apply Hhi. rewrite Z.shiftr_div_pow2 by lia.
    split; [apply Z.div_pos; lia | apply Z.div_lt_upper_bound; lia].
  - destruct (Z.leb_spec (Year now) 65535); [| lia].
    eexists _, _. split; [cbn [app]; reflexivity |].
    replace (Z.lor 224 (Z.shiftr (Year now) 12)) with (Z.lor 192 (32 + Z.shiftr (Year now) 12)).
    + apply Hhi. rewrite Z.shiftr_div_pow2 by lia.
      assert (0 <= Year now / 2 ^ 12 < 3); [| lia].
      split; [apply Z.div_pos; lia | apply Z.div_lt_upper_bound; lia].
    + rewrite Z.shiftr_div_pow2 by lia.
      assert (Hq : 0 <= Year now / 2 ^ 12 < 3).
      { split; [apply Z.div_pos; lia | apply Z.div_lt_upper_bound; lia]. }
      assert (Year now / 2 ^ 12 = 0 \/ Year now / 2 ^ 12 = 1 \/ Year now / 2 ^ 12 = 2)
        as [-> | [-> | ->]] by lia; reflexivity.
Qed.

(** ** output *)

Lemma format_line_total l now file line s : is_Some (format_line l now file line s).
Proof.
  unfold format_line.
  destruct (formatHeader_total l [] now file line) as [b ->].
  cbn [mbind option_bind]. eauto.
Qed.

Lemma nonempty_path p : p <> EmptyString -> (0 <? Z.of_nat (String.length p)) = true.
Proof. by destruct p. Qed.

(** [output] on a Logger with a path: the line, the roll, and the write
    unless the roll returned an error. *)
Lemma output_rolls l calldepth s now Caller st b :
  path l <> EmptyString ->
  format_line l now (caller_info l calldepth Caller).1
    (caller_info l calldepth Caller).2 s = Some b ->
  output l calldepth s now Caller st =
    Some (match rollFile (set_buf l b) now st with
          | (Some err, l', st') => (Some err, l', st')
          | (None, l', st') =>
              ((Write (out l') (buf l') (os st')).1, l',
               {| os := (Write (out l') (buf l') (os st')).2;
                  currentOutFile := currentOutFile st' |})
          end).
Proof.
  intros Hp Hb. unfold output.
  destruct (caller_info l calldepth Caller) as [file line]. cbn [fst snd] in Hb.
  rewrite Hb. cbn [mbind option_bind].
  replace (path (set_buf l b)) with (path l) by done.
  rewrite (nonempty_path _ Hp).
  destruct (rollFile (set_buf l b) now st) as [[[e|] l'] st']; [done |].
  by destruct (Write (out l') (buf l') (os st')).
Qed.

(** Below the threshold a call on a Logger with a path counts the line and
    writes it: this is how the counter comes to stand at any number of
    bytes up to [maxsize]. *)
Lemma output_below_threshold l calldepth s now Caller st b :
  path l <> EmptyString ->
  format_line l now (caller_info l calldepth Caller).1
    (caller_info l calldepth Caller).2 s = Some b ->
  counted (set_buf l b) <= maxsize l ->
  is_open (out l) (os st) = true ->
  exists w',
    output l calldepth s now Caller st =
      Some (None, set_size (set_buf l b) (counted (set_buf l b)),
            {| os := w'; currentOutFile := currentOutFile st |}) /\
    calls w' = calls (os st) ++ [CallWrite (out l) b None] /\
    file_content_of (out l) w' = (fun old => old ++ b) <$> file_content_of (out l) (os st).
Proof.
  intros Hp Hb Hle Hopen.
  rewrite (output_rolls l calldepth s now Caller st b Hp Hb).
  rewrite rollFile_noop by done. cbn [out buf set_size set_buf].
  destruct (Write_appends (out l) b (os st) Hopen) as [Hw1 Hw2].
  pose proof (Write_calls (out l) b (os st)) as Hc. rewrite Hw1 in Hc.
  eexists. rewrite Hw1. split; [reflexivity |]. by split.
Qed.

(** A rotation writes to no file. *)
Lemma rollFile_data l now st : data (os (rollFile l now st).2) = data (os st).
Proof.
  unfold rollFile. destruct (maxsize _ <? size _); [| done].
  set (l0 := set_size l _).
  destruct (close_current_spec l0 st) as (l1 & closes & -> & _ & _ & _ & Hd1 & _).
  set (w1 := after_close st) in *.
  pose proof (Rename_frame (path l1) (rolled_name (path l1) now) w1) as [Hd2 _].
  destruct (Rename (path l1) (rolled_name (path l1) now) w1) as [[e|] w2];
    cbn [fst snd] in *.
  - pose proof (OpenFile_no_create (path l1 +:+ intstring (Unix now))
                  (Z.lor O_APPEND O_WRONLY) 384 w2 append_wronly_no_create)
      as (_ & Hd3 & _).
    cbn [path warn set_buf] in *.
    destruct (OpenFile _ _ _ w2) as [[e'|f] w3]; cbn [fst snd os] in *; congruence.
  - pose proof (OpenFile_no_create (path l1) (Z.lor O_APPEND O_WRONLY) 384 w2
                  append_wronly_no_create) as (_ & Hd3 & _).
    destruct (OpenFile _ _ _ w2) as [[e'|f] w3]; cbn [fst snd os] in *; congruence.
Qed.

(** What holds of C7 for every Logger: when the open of a rotation fails,
    [output] returns the error of that open, makes no [Write] and changes
    no file's content, and the Logger's sink is the handle it was.  That
    handle has been closed if it is the package's current file. *)
Lemma output_open_failure l calldepth s now Caller st b e :
  path l <> EmptyString ->
  format_line l now (caller_info l calldepth Caller).1
    (caller_info l calldepth Caller).2 s = Some b ->
  maxsize l < counted (set_buf l b) ->
  (rollFile (set_buf l b) now st).1.1 = Some e ->
  exists l' st',
    output l calldepth s now Caller st = Some (Some e, l', st') /\
    (exists name flg perm,
       last (calls (os st')) = Some (CallOpen name flg perm (inl e))) /\
    forallb (fun c => negb (is_write c)) (calls_since (os st) (os st')) = true /\
    data (os st') = data (os st) /\
    out l' = out l /\
    (currentOutFile st = Some (out l) -> is_open (out l) (os st') = false).
Proof.
  intros Hp Hb Hgt He.
  rewrite (output_rolls l calldepth s now Caller st b Hp Hb).
  pose proof (rollFile_data (set_buf l b) now st) as Hd.
  destruct (rollFile_calls (set_buf l b) now st Hgt)
    as (closes & ro & Hcalls & Hcl & Herr & Hro & _).
  rewrite He in Herr. destruct ro as [e' | f]; [| done]. injection Herr as ->.
  destruct Hro as (Ho & _ & Hfiles).
  destruct (rollFile (set_buf l b) now st) as [[err l'] st']. cbn [fst snd] in *.
  subst err. exists l', st'. split; [done |].
  split. { do 3 eexists. by rewrite Hcalls, !app_assoc, last_app. }
  split.
  { rewrite (calls_since_app _ _ _ Hcalls), forallb_app. subst closes.
    by destruct (currentOutFile st). }
  split; [done |]. split; [done |].
  intros Hcur. unfold is_open. rewrite Hfiles. unfold after_close. rewrite Hcur.
  apply Close_closes.
Qed.

(** C7, with two Loggers.  The Logger on [a.log] crosses its threshold after
    the Logger on [b.log] was made; the open of its rotation fails and
    [output] returns that error without a [Write], its sink still the
    handle 0 it had: but that handle has not been closed, the handle
    closed is the one of the other Logger. *)
Theorem open_failure_leaves_own_handle_open :
  roll_a.1.1 = Some (PathError "open" "a.log" ENOENT) /\
  calls_since (os logger_b.2) (os roll_a.2) =
    [CallClose 1%nat None;
     CallRename "a.log" (rolled_name "a.log" noon_0304) None;
     CallOpen "a.log" (Z.lor O_APPEND O_WRONLY) 384
       (inl (PathError "open" "a.log" ENOENT))] /\
  data (os roll_a.2) = data (os logger_b.2) /\
  out (made logger_a) = 0%nat /\ out roll_a.1.2 = 0%nat /\
  is_open (out roll_a.1.2) (os roll_a.2) = true /\
  out (made logger_b) = 1%nat /\
  is_open (out (made logger_b)) (os roll_a.2) = false.
Proof. repeat split; by vm_compute. Qed.

(** With one Logger the handle has been closed, as C7 has it. *)
Example open_failure_one_logger :
  first_roll.1.1 = Some (PathError "open" "ara.log" ENOENT) /\
  out first_roll.1.2 = out (made ara_logger) /\
  is_open (out first_roll.1.2) (os first_roll.2) = false /\
  forallb (fun c => negb (is_write c))
    (calls_since (os ara_logger.2) (os first_roll.2)) = true.
Proof. repeat split; by vm_compute. Qed.

(** C1, with two Loggers on two paths.  Before the Logger on [a.log]
    rotates, the handle of the Logger on [b.log] is open and a line written
    through it reaches [b.log].  The rotation of the Logger on [a.log]
    closes the package's current file, which is the handle of the Logger on
    [b.log]: after it that handle is closed, and the same call on the
    Logger of [b.log] returns an error and writes nothing. *)
Theorem rotation_closes_the_other_logger :
  path (made logger_a) = "a.log"%string /\ path (made logger_b) = "b.log"%string /\
  out (made logger_a) <> out (made logger_b) /\
  currentOutFile logger_b.2 = Some (out (made logger_b)) /\
  is_open (out (made logger_b)) (os logger_b.2) = true /\
  emit_b_before.1.1 = None /\
  file_content "b.log" (os emit_b_before.2) = Some hello_line /\
  CallClose (out (made logger_b)) None ∈ calls_since (os logger_b.2) (os roll_a.2) /\
  is_open (out (made logger_b)) (os roll_a.2) = false /\
  emit_b_after.1.1 = Some (PathError "write" "b.log" ErrClosed) /\
  file_content "b.log" (os emit_b_after.2) = Some [].
Proof.
  repeat split; try by vm_compute.
  apply list_elem_of_In. vm_compute. by left.
Qed.

(** ** The short file name *)

(** C6, at a file in the root directory.  With [Lshortfile] set, alone or
    with [Llongfile], the header of a caller in "/d.go" shows "/d.go": the
    search for the separator stops before the first byte, where the only
    separator is; the substring after the last separator is "d.go".  On the
    path of the specification's example the short name is the last
    element. *)
Theorem shortfile_misses_leading_separator :
  formatHeader (New 0%nat "" Lshortfile) [] noon_0304 "/d.go" 23
    = Some (bytes "/d.go:23: ") /\
  formatHeader (New 0%nat "" (Z.lor Lshortfile Llongfile)) [] noon_0304 "/d.go" 23
    = Some (bytes "/d.go:23: ") /\
  shortfile "/d.go" = "/d.go"%string /\
  after_last_separator "/d.go" = "d.go"%string /\
  formatHeader (New 0%nat "" Lshortfile) [] noon_0304 "/a/b/c/d.go" 23
    = Some (bytes "d.go:23: ").
Proof. repeat split; by vm_compute. Qed.

(** *** What the search finds on every path *)

Lemma append_assoc (a b c : string) : (a +:+ b) +:+ c = a +:+ (b +:+ c).
Proof.
  induction a as [|x a IH]; [done |].
  change ((String x a +:+ b) +:+ c) with (String x ((a +:+ b) +:+ c)).
  change (String x a +:+ (b +:+ c)) with (String x (a +:+ (b +:+ c))).
  by rewrite IH.
Qed.

Lemma append_nil_r (a : string) : a +:+ "" = a.
Proof.
  induction a as [|x a IH]; [done |].
  change (String x a +:+ "") with (String x (a +:+ "")). by rewrite IH.
Qed.

Lemma string_snoc_ind (P : string -> Prop) :
  P EmptyString ->
  (forall a x, P a -> P (a +:+ String x "")) ->
  forall s, P s.
Proof.
  intros Hnil Hsnoc s.
  rewrite <- (string_of_list_ascii_of_string s).
  induction (list_ascii_of_string s) as [|x l IH] using rev_ind; [done |].
  replace (string_of_list_ascii (l ++ [x]))
    with (string_of_list_ascii l +:+ String x ""); [by apply Hsnoc |].
  clear. induction l as [|y l IH]; [done |].
  cbn [app string_of_list_ascii].
  change (String y (string_of_list_ascii l) +:+ String x "")
    with (String y (string_of_list_ascii l +:+ String x "")).
  by rewrite IH.
Qed.

Lemma length_snoc a x : String.length (a +:+ String x "") = S (String.length a).
Proof.
  induction a as [|y a IH]; [done |].
  change (String y a +:+ String x "") with (String y (a +:+ String x "")).
  cbn [String.length]. by rewrite IH.
Qed.

Lemma get_after a x b : String.get (String.length a) (a +:+ String x b) = Some x.
Proof.
  induction a as [|y a IH]; [done |].
  change (String y a +:+ String x b) with (String y (a +:+ String x b)).
  cbn [String.length String.get]. exact IH.
Qed.

Lemma string_from_after a b : string_from (String.length a) (a +:+ b) = b.
Proof.
  induction a as [|y a IH]; [by destruct b |].
  change (String y a +:+ b) with (String y (a +:+ b)).
  cbn [String.length string_from]. exact IH.
Qed.

Lemma has_separator_app a b :
  has_separator (a +:+ b) = has_separator a || has_separator b.
Proof.
  induction a as [|y a IH]; [done |].
  change (String y a +:+ b) with (String y (a +:+ b)).
  cbn [has_separator]. by rewrite IH, orb_assoc.
Qed.

Lemma after_last_separator_slash a : after_last_separator (a +:+ "/") = EmptyString.
Proof.
  induction a as [|y a IH]; [done |].
  change (String y a +:+ "/") with (String y (a +:+ "/")).
  cbn [after_last_separator]. rewrite has_separator_app. cbn [has_separator].
  rewrite Ascii.eqb_refl. cbn [orb]. by rewrite orb_true_r.
Qed.

Lemma after_last_separator_app a b :
  has_separator a = true -> has_separator b = false ->
  after_last_separator (a +:+ b) = after_last_separator a +:+ b.
Proof.
  intros Ha Hb. induction a as [|y a IH]; [done |].
  change (String y a +:+ b) with (String y (a +:+ b)).
  cbn [after_last_separator has_separator] in *.
  rewrite has_separator_app, Hb, orb_false_r.
  destruct (has_separator a); [by apply IH |].
  rewrite orb_false_r in Ha. by rewrite Ha.
Qed.

(** The search from index [length a] of the file [c], [a], [b] sees the
    separators of [a] only. *)
Lemma short_loop_prefix c a : forall b,
  short_loop (String c (a +:+ b)) (String.length a) =
    if has_separator a then after_last_separator a +:+ b
    else String c (a +:+ b).
Proof.
  induction a as [|a x IH] using string_snoc_ind; intros b; [done |].
  rewrite length_snoc, append_assoc.
  change (String x "" +:+ b) with (String x b).
  cbn [short_loop String.get]. rewrite get_after.
  rewrite has_separator_app. cbn [has_separator]. rewrite orb_false_r.
  destruct (Ascii.eqb_spec x "/") as [-> | Hx].
  - rewrite orb_true_r, after_last_separator_slash.
    rewrite Nat.add_1_r. cbn [string_from].
    rewrite <- (string_from_after (a +:+ "/") b) at 2.
    by rewrite length_snoc, append_assoc.
  - rewrite orb_false_r, IH.
    destruct (has_separator a) eqn:Ha; [| done].
    rewrite after_last_separator_app, append_assoc; [done | done |].
    cbn [has_separator]. apply Ascii.eqb_neq in Hx. by rewrite Hx.
Qed.

(** The short name of [formatHeader] on every path: the substring after the
    last separator that is not the first byte, the whole path when there
    is none. *)
Lemma shortfile_spec c rest :
  shortfile (String c rest) =
    if has_separator rest then after_last_separator rest else String c rest.
Proof.
  unfold shortfile. cbn [String.length]. rewrite Nat.sub_succ, Nat.sub_0_r.
  pose proof (short_loop_prefix c rest "") as H.
  by rewrite !append_nil_r in H.
Qed.

(** It is the substring of C6 on every path but those whose one separator
    is the first byte. *)
Lemma shortfile_after_last_separator file :
  (forall rest, file = String "/" rest -> has_separator rest = true) ->
  shortfile file = after_last_separator file.
Proof.
  intros H. destruct file as [|c rest]; [done |].
  rewrite shortfile_spec. cbn [after_last_separator].
  destruct (has_separator rest) eqn:Hs; [done |].
  destruct (Ascii.eqb_spec c "/") as [-> | _]; [| done].
  specialize (H rest eq_refl). congruence.
Qed.

(** * Further properties of the code *)

(** ** itoa on every [int] *)

(** X1.  [itoa] prints an [int] as the unsigned number of the same bits: for
    every [int] [i] and every width that the array holds it appends the
    decimal digits of [u = uint(i)], which for a negative [i] is
    [i + 2^64], with [w - digitCount u] zeros on their left when the width
    is above the count of digits and none otherwise: [max w (digitCount u)]
    digits, of value [u], the first of the digits of a positive [u] being
    no zero.  A negative [i] has nineteen or twenty digits and never a
    sign. *)
Theorem itoa_prints_unsigned buf i w :
  min_int <= i <= max_int -> min_int + 20 <= w <= 32 ->
  let u := if i <? 0 then i + 2 ^ 64 else i in
  let ds := replicate (Z.to_nat (w - digitCount u)) "0"%char ++ decimal u in
  itoa buf i w = Some (buf ++ ds) /\
  Z.of_nat (length ds) = Z.max w (digitCount u) /\
  Forall is_digit ds /\
  decimal_value ds = u /\
  decimal_value (decimal u) = u /\
  (0 < u -> exists c rest, decimal u = c :: rest /\ c <> "0"%char) /\
  (i < 0 -> 19 <= digitCount u <= 20) /\
  (i < 0 -> w <= 19 -> 19 <= Z.of_nat (length ds) <= 20).
Proof.
  intros Hi Hw u ds. unfold min_int, max_int in *.
  assert (Hu : to_uint i = u).
  { subst u. unfold to_uint. destruct (Z.ltb_spec i 0).
    - rewrite <- (Z.mod_add i 1 (2 ^ 64)) by lia. rewrite Z.mod_small; lia.
    - rewrite Z.mod_small; lia. }
  assert (Hr : 0 <= to_uint i < 2 ^ 64) by (apply Z.mod_pos_bound; lia).
  pose proof (digitCount_int _ Hr) as Hdc.
  pose proof (digitCount_pos (to_uint i) ltac:(lia)) as Hdp.
  rewrite Hu in Hr, Hdc, Hdp.
  assert (Hlen : Z.of_nat (length ds) = Z.max w (digitCount u)).
  { apply (length_zero_padded w u). lia. }
  assert (H19 : i < 0 -> 19 <= digitCount u <= 20).
  { intros Hneg. split; [| done].
    assert (Hu' : u = i + 2 ^ 64) by (subst u; destruct (Z.ltb_spec i 0); lia).
    destruct (Z_le_gt_dec 19 (digitCount u)) as [| Hlt]; [done |].
    pose proof (digitCount_spec u ltac:(lia)) as [_ Hhi].
    assert (10 ^ digitCount u <= 10 ^ 18) by (apply Z.pow_le_mono_r; lia).
    lia. }
  split.
  { subst ds. rewrite <- Hu. apply itoa_to_uint; rewrite ?Hu; unfold min_int; lia. }
  split; [done |]. split.
  { apply Forall_app. split.
    - apply Forall_replicate. by vm_compute.
    - apply decimal_digits. lia. }
  split.
  { subst ds. clear Hlen. unfold decimal_value. rewrite fold_left_app.
    replace (fold_left _ (replicate _ _) 0) with 0.
    - apply decimal_value_decimal. lia.
    - induction (Z.to_nat (w - digitCount u)) as [|k IH]; [done |].
      by rewrite replicate_snoc, fold_left_app, <- IH. }
  split; [apply decimal_value_decimal; lia |].
  split; [apply decimal_head |].
  split; [done |].
  intros Hneg Hw19. specialize (H19 Hneg). lia.
Qed.

Lemma itoa_prints_unsigned_witness :
  itoa [] (-1) 2 = Some ([] ++ replicate (Z.to_nat (2 - digitCount (2 ^ 64 - 1))) "0"%char
                          ++ decimal (2 ^ 64 - 1)) /\
  decimal (2 ^ 64 - 1) = bytes "18446744073709551615".
Proof.
  split; [| by vm_compute].
  apply (itoa_prints_unsigned [] (-1) 2); unfold min_int, max_int; lia.
Defined.

(** X2.  The bound of [itoa] is the 32 bytes of its array: for every [int]
    and every width whose countdown cannot wrap, [itoa] panics exactly when
    the width is above 32. *)
Theorem itoa_panics_iff_wide buf i w :
  min_int + 20 <= w <= max_int ->
  itoa buf i w = None <-> 32 < w.
Proof.
  intros Hw. unfold min_int, max_int in *.
  assert (Hr : 0 <= to_uint i < 2 ^ 64) by (apply Z.mod_pos_bound; lia).
  pose proof (digitCount_int _ Hr) as Hdc.
  split.
  - intros Hnone. destruct (Z_lt_le_dec 32 w) as [| Hle]; [done |].
    rewrite itoa_to_uint in Hnone; [done | done | unfold min_int; lia].
  - intros Hwide. unfold itoa.
    destruct (Z.leb_spec w 1); [lia |]. rewrite andb_false_r.
    rewrite itoa_loop_panics; [done | lia | unfold min_int; lia | unfold max_int; lia |].
    apply Nat2Z.inj_lt. rewrite length_loop_out by lia.
    destruct (to_uint i =? 0); lia.
Qed.

Lemma itoa_panics_iff_wide_witness :
  itoa [] 2009 40 = None <-> 32 < 40.
Proof.
  apply (itoa_panics_iff_wide [] 2009 40). unfold min_int, max_int. lia.
Defined.

(** ** formatHeader on every input *)

(** X3.  [formatHeader] and [output] return on every input: whatever the
    flag word, the fields of the time (a year before 0 too) and the line,
    no call of [itoa] leaves its array; and [formatHeader] only appends: the
    buffer it is given is the start of the one it returns, followed by the
    header it makes on an empty buffer. *)
Theorem formatHeader_only_appends l buf t file line calldepth s Caller st :
  is_Some (formatHeader l [] t file line) /\
  formatHeader l buf t file line = Some (buf ++ header_of l t file line) /\
  is_Some (output l calldepth s t Caller st).
Proof.
  assert (Happ : forall b, formatHeader l b t file line =
                           (fun h => b ++ h) <$> formatHeader l [] t file line).
  { intros b. unfold formatHeader.
    destruct (flag_any (flag l) (Z.lor Ldate (Z.lor Ltime Lmicroseconds))),
      (flag_any (flag l) Ldate), (flag_any (flag l) (Z.lor Ltime Lmicroseconds)),
      (flag_any (flag l) Lmicroseconds), (flag_any (flag l) (Z.lor Lshortfile Llongfile)),
      (flag_any (flag l) Lshortfile);
      repeat (cbn [mbind option_bind]; rewrite itoa_header by lia);
      cbn [mbind option_bind fmap option_fmap option_map app];
      f_equal; rewrite <- ?app_assoc; reflexivity. }
  destruct (formatHeader_total l [] t file line) as [h Hh].
  split; [by eexists |].
  split.
  { rewrite Happ. unfold header_of. by rewrite Hh. }
  unfold output. destruct (caller_info l calldepth Caller) as [f n].
  destruct (format_line_total l t f n s) as [b ->]. cbn [mbind option_bind].
  destruct (0 <? _); [| eauto].
  destruct (rollFile _ t st) as [[[e|] l'] st']; eauto.
Qed.

(** X4.  The header has fixed columns: for a valid time and a line number
    that is not negative, its length is that of the prefix, plus 11 bytes
    when the date is shown, plus 9 bytes for the time or 16 with
    microseconds, plus the file name shown, the digits of the line and
    three bytes of punctuation when a file option is set. *)
Theorem header_has_fixed_columns l t file line :
  valid_time t -> 0 <= line < 2 ^ 63 ->
  Z.of_nat (length (header_of l t file line)) =
    Z.of_nat (String.length (prefix l))
    + (if has_Date (flag l) then 11 else 0)
    + (if has_Time (flag l) || has_Microseconds (flag l)
       then (if has_Microseconds (flag l) then 16 else 9) else 0)
    + (if has_ShortFile (flag l) || has_LongFile (flag l)
       then Z.of_nat (String.length (shown_file (flag l) file)) + digitCount line + 3
       else 0).
Proof.
  intros Ht Hline. unfold header_of.
  rewrite (formatHeader_template l t file line Ht Hline []). cbn [from_option app].
  destruct Ht as (Hy & Hmo & Hd & Hh & Hmi & Hs & Hn).
  assert (Hus : 0 <= Nanosecond t / 1000 < 10 ^ 6).
  { split; [apply Z.div_pos; lia | apply Z.div_lt_upper_bound; lia]. }
  assert (Hlen : forall s, length (bytes s) = String.length s).
  { intros s. unfold bytes. induction s as [|c s IH]; [done |]. cbn. by rewrite IH. }
  assert (Hpad : forall w n, 0 <= n < 10 ^ w -> 1 <= w ->
                 Z.of_nat (length (zero_padded w n)) = w).
  { intros w n Hn' Hw. rewrite length_zero_padded by lia.
    pose proof (digitCount_below n w Hn' Hw). lia. }
  assert (Hdate : Z.of_nat (length (date_field t)) = 11).
  { unfold date_field. rewrite !length_app, !Nat2Z.inj_add, !Hpad by lia. done. }
  assert (Htime : forall m, Z.of_nat (length (time_field m t)) = if m then 16 else 9).
  { intros m. unfold time_field.
    destruct m; rewrite !length_app, !Nat2Z.inj_add, !Hpad by lia; done. }
  assert (Hfile : forall f, Z.of_nat (length (file_field f line)) =
                            Z.of_nat (String.length f) + digitCount line + 3).
  { intros f. unfold file_field.
    rewrite !length_app, !Nat2Z.inj_add, !Hlen. unfold digitCount. cbn. lia. }
  unfold id, header_template.
  rewrite !length_app, !Nat2Z.inj_add, Hlen.
  destruct (has_Date (flag l)), (has_Time (flag l) || has_Microseconds (flag l)),
    (has_ShortFile (flag l) || has_LongFile (flag l));
    rewrite ?Hdate, ?Htime, ?Hfile; cbn [length Z.of_nat]; lia.
Qed.

Lemma header_has_fixed_columns_witness :
  Z.of_nat (length (header_of (New 0%nat "log: " LstdFlags) noon_0304 "" 0)) =
    Z.of_nat (String.length "log: ")
    + (if has_Date LstdFlags then 11 else 0)
    + (if has_Time LstdFlags || has_Microseconds LstdFlags
       then (if has_Microseconds LstdFlags then 16 else 9) else 0)
    + (if has_ShortFile LstdFlags || has_LongFile LstdFlags
       then Z.of_nat (String.length (shown_file LstdFlags "")) + digitCount 0 + 3
       else 0).
Proof.
  apply (header_has_fixed_columns (New 0%nat "log: " LstdFlags) noon_0304 "" 0).
  - unfold valid_time. cbn. lia.
  - lia.
Defined.

(** The header in terms of the five bits of the flag word. *)
Lemma formatHeader_bits l l' buf t file line :
  prefix l' = prefix l ->
  has_Date (flag l') = has_Date (flag l) ->
  has_Time (flag l') || has_Microseconds (flag l')
    = has_Time (flag l) || has_Microseconds (flag l) ->
  has_Microseconds (flag l') = has_Microseconds (flag l) ->
  has_ShortFile (flag l') || has_LongFile (flag l')
    = has_ShortFile (flag l) || has_LongFile (flag l) ->
  has_ShortFile (flag l') = has_ShortFile (flag l) ->
  formatHeader l' buf t file line = formatHeader l buf t file line.
Proof.
  intros Hp Hd Ht Hm Hf Hs. unfold formatHeader.
  rewrite !flag_any_lor, !flag_Ldate, !flag_Ltime, !flag_Lmicroseconds,
    !flag_Llongfile, !flag_Lshortfile.
  rewrite Ht, Hf, Hp, Hd, Hm, Hs. reflexivity.
Qed.

(** X5.  Two options imply another, as the comments of the flags say:
    [Lmicroseconds] "assumes [Ltime]" and [Lshortfile] "overrides
    [Llongfile]": adding [Ltime] to a flag word that has [Lmicroseconds],
    or [Llongfile] to one that has [Lshortfile], changes no header. *)
Theorem implied_flags_change_nothing l buf t file line :
  (has_Microseconds (flag l) = true ->
   formatHeader (set_flag l (Z.lor (flag l) Ltime)) buf t file line
     = formatHeader l buf t file line) /\
  (has_ShortFile (flag l) = true ->
   formatHeader (set_flag l (Z.lor (flag l) Llongfile)) buf t file line
     = formatHeader l buf t file line).
Proof.
  split; intros H; apply formatHeader_bits; cbn [prefix flag set_flag];
    unfold has_Date, has_Time, has_Microseconds, has_ShortFile, has_LongFile in *;
    rewrite ?Z.lor_spec, ?H; try reflexivity;
    cbn; rewrite ?orb_false_r, ?orb_true_r; reflexivity.
Qed.

Lemma implied_flags_change_nothing_witness :
  formatHeader (set_flag (New 0%nat "" Lmicroseconds) (Z.lor Lmicroseconds Ltime))
    [] noon_0304 "" 0
  = formatHeader (New 0%nat "" Lmicroseconds) [] noon_0304 "" 0.
Proof.
  apply (implied_flags_change_nothing (New 0%nat "" Lmicroseconds) [] noon_0304 "" 0).
  reflexivity.
Defined.

(** X6.  Only the five low bits of the flag word count: two flag words that
    agree on them give the same header and the same caller, so a header
    under any flag word is the header under the word masked with 31. *)
Theorem high_flag_bits_are_ignored l f buf t file line calldepth Caller :
  (forall k, 0 <= k <= 4 -> Z.testbit f k = Z.testbit (flag l) k) ->
  formatHeader (set_flag l f) buf t file line = formatHeader l buf t file line /\
  caller_info (set_flag l f) calldepth Caller = caller_info l calldepth Caller /\
  formatHeader (set_flag l (Z.land (flag l) 31)) buf t file line
    = formatHeader l buf t file line.
Proof.
  intros H.
  assert (Hgen : forall g, (forall k, 0 <= k <= 4 -> Z.testbit g k = Z.testbit (flag l) k) ->
            formatHeader (set_flag l g) buf t file line = formatHeader l buf t file line).
  { intros g Hg. apply formatHeader_bits; cbn [prefix flag set_flag];
      unfold has_Date, has_Time, has_Microseconds, has_ShortFile, has_LongFile;
      rewrite ?Hg by lia; reflexivity. }
  split; [by apply Hgen |]. split.
  - unfold caller_info. cbn [flag set_flag].
    rewrite !flag_any_lor, !flag_Llongfile, !flag_Lshortfile.
    unfold has_ShortFile, has_LongFile. by rewrite !H by lia.
  - apply Hgen. intros k Hk. rewrite Z.land_spec.
    change 31 with (Z.ones 5). rewrite Z.testbit_ones_nonneg by lia.
    destruct (Z.ltb_spec k 5); [| lia]. cbn. apply andb_true_r.
Qed.

Lemma high_flag_bits_are_ignored_witness :
  formatHeader (set_flag (New 0%nat "" LstdFlags) (LstdFlags + 32)) [] noon_0304 "" 0
    = formatHeader (New 0%nat "" LstdFlags) [] noon_0304 "" 0.
Proof.
  apply (high_flag_bits_are_ignored (New 0%nat "" LstdFlags) (LstdFlags + 32)
           [] noon_0304 "" 0 2 no_caller).
  intros k Hk.
  assert (k = 0 \/ k = 1 \/ k = 2 \/ k = 3 \/ k = 4) as [-> | [-> | [-> | [-> | ->]]]] by lia;
    reflexivity.
Defined.

(** ** The short file name on every path *)

Lemma after_last_separator_suffix s :
  exists pre, s = pre +:+ after_last_separator s.
Proof.
  induction s as [|c s [pre IH]]; [by exists EmptyString |].
  cbn [after_last_separator].
  destruct (has_separator s).
  - exists (String c pre). change (String c pre +:+ after_last_separator s)
      with (String c (pre +:+ after_last_separator s)). by rewrite <- IH.
  - destruct (Ascii.eqb c "/").
    + by exists (String c "").
    + by exists EmptyString.
Qed.

Lemma after_last_separator_clean s :
  has_separator (after_last_separator s) = false.
Proof.
  induction s as [|c s IH]; [done |].
  cbn [after_last_separator].
  destruct (has_separator s) eqn:Hs; [done |].
  destruct (Ascii.eqb c "/") eqn:Hc; [done |].
  cbn [has_separator]. by rewrite Hc, Hs.
Qed.

(** X7.  The short name that [formatHeader] shows is an end of the path, and
    has no separator after its first byte: it is the part after the last
    separator found from the second byte on, and the whole path when there
    is none; of the empty path it is the empty name. *)
Theorem shortfile_is_a_clean_suffix file :
  (exists pre, file = pre +:+ shortfile file) /\
  (forall c r, shortfile file = String c r -> has_separator r = false) /\
  (forall c rest, file = String c rest ->
     shortfile file = if has_separator rest then after_last_separator rest else file) /\
  (file = EmptyString -> shortfile file = EmptyString).
Proof.
  destruct file as [|c rest].
  { split; [by exists EmptyString |]. repeat split; try done. }
  assert (Hs : shortfile (String c rest) =
               if has_separator rest then after_last_separator rest else String c rest).
  { unfold shortfile. cbn [String.length]. rewrite Nat.sub_succ, Nat.sub_0_r.
    pose proof (short_loop_prefix c rest "") as H. by rewrite !append_nil_r in H. }
  rewrite Hs. split; [| split; [| split]].
  - destruct (has_separator rest).
    + destruct (after_last_separator_suffix rest) as [pre Hpre].
      exists (String c pre).
      change (String c pre +:+ after_last_separator rest)
        with (String c (pre +:+ after_last_separator rest)). by rewrite <- Hpre.
    + by exists EmptyString.
  - intros c' r. destruct (has_separator rest) eqn:Hr.
    + intros E. pose proof (after_last_separator_clean rest) as Hc.
      rewrite E in Hc. cbn [has_separator] in Hc.
      by apply orb_false_iff in Hc as [_ ?].
    + by intros [= _ <-].
  - by intros c' rest' [= <- <-].
  - done.
Qed.

(** ** The newline of a line *)

(** X8.  [output] ends a line once: a message that ends in a newline goes
    into the buffer as it is, a message that is not empty and does not end
    in one is followed by a newline, and so a message and the same message
    with a newline after it give the same line. *)
Theorem line_is_terminated_once l t file line s :
  (ends_in_newline s = true ->
   format_line l t file line s = Some (header_of l t file line ++ bytes s)) /\
  (s <> EmptyString -> ends_in_newline s = false ->
   format_line l t file line s
     = Some (header_of l t file line ++ bytes s ++ [newline]) /\
   format_line l t file line (s +:+ String newline "")
     = format_line l t file line s).
Proof.
  unfold format_line, header_of, ends_in_newline.
  destruct (formatHeader_total l [] t file line) as [h ->].
  cbn [mbind option_bind default from_option]. unfold id.
  rewrite !get_last, !nonempty_length.
  split.
  - intros H. destruct (last (bytes s)) as [c|]; [| done].
    rewrite H. by rewrite andb_false_r.
  - intros Hne H.
    assert (Hs : (s =? "")%string = false) by (by apply String.eqb_neq).
    assert (Hcond : negb match last (bytes s) with
                         | Some c => Ascii.eqb c newline
                         | None => false
                         end = true).
    { destruct (last (bytes s)); [by rewrite H | done]. }
    rewrite Hs, Hcond. cbn [negb andb].
    split; [by rewrite <- app_assoc |].
    rewrite bytes_app, last_app. cbn [bytes list_ascii_of_string last].
    rewrite Ascii.eqb_refl, andb_false_r. by rewrite <- app_assoc.
Qed.

Lemma line_is_terminated_once_witness :
  format_line (New 0%nat "" Ltime) noon_0304 "" 0 "hello"
    = Some (header_of (New 0%nat "" Ltime) noon_0304 "" 0 ++ bytes "hello" ++ [newline]) /\
  format_line (New 0%nat "" Ltime) noon_0304 "" 0 ("hello" +:+ String newline "")
    = format_line (New 0%nat "" Ltime) noon_0304 "" 0 "hello".
Proof.
  destruct (line_is_terminated_once (New 0%nat "" Ltime) noon_0304 "" 0 "hello")
    as [_ H].
  apply H; [discriminate | reflexivity].
Defined.

(** ** Construction on a file that is there *)

(** X9.  On a path that names a file, [NewRollFileLogger] returns a Logger
    with no prefix, the given flags and path, an empty buffer, a counter of
    zero whatever the size of the file, and the given threshold, or ten
    mebibytes when that is below one mebibyte; its sink is a new handle,
    open on that file, which is also the package's current file; no file
    is created or changed and no handle is closed.  [NewFileLogger] is the
    same with a threshold of ten mebibytes. *)
Theorem NewRollFileLogger_on_existing_file name m flg st ino :
  dir (os st) !! name = Some ino ->
  exists l st',
    NewRollFileLogger name m flg st = (inr l, st') /\
    prefix l = EmptyString /\ flag l = flg /\ path l = name /\
    buf l = [] /\ size l = 0 /\
    maxsize l = (if m <? MiB then 10 * MiB else m) /\ MiB <= maxsize l /\
    out l = length (files (os st)) /\
    is_open (out l) (os st') = true /\
    file_content_of (out l) (os st') = data (os st) !! ino /\
    currentOutFile st' = Some (out l) /\
    dir (os st') = dir (os st) /\ data (os st') = data (os st) /\
    (forall g, is_open g (os st) = true -> is_open g (os st') = true) /\
    maxsize (made (NewFileLogger name flg st)) = 10 * MiB /\
    out (made (NewFileLogger name flg st)) = out l.
Proof.
  intros Hd. unfold NewFileLogger, NewRollFileLogger, OpenFile, made. rewrite Hd.
  cbn [fst snd].
  eexists _, _. split; [reflexivity |].
  cbn [prefix flag path buf size maxsize out os currentOutFile dir data files].
  repeat split; try done.
  - unfold MiB. destruct (Z.ltb_spec m (1024 * 1024)); lia.
  - unfold is_open. cbn [files]. by rewrite lookup_app_r, Nat.sub_diag by lia.
  - unfold file_content_of. cbn [files data].
    by rewrite lookup_app_r, Nat.sub_diag by lia.
  - intros g. unfold is_open. cbn [files].
    destruct (files (os st) !! g) as [fo|] eqn:Eg; [| done].
    by rewrite (lookup_app_l_Some _ _ _ _ Eg).
Qed.

Lemma NewRollFileLogger_on_existing_file_witness :
  exists l st',
    NewRollFileLogger "ara.log" (500 * 1024) LstdFlags one_log = (inr l, st') /\
    maxsize l = 10 * MiB /\ size l = 0 /\ currentOutFile st' = Some (out l).
Proof.
  destruct (NewRollFileLogger_on_existing_file "ara.log" (500 * 1024) LstdFlags one_log 0%nat)
    as (l & st' & H & _ & _ & _ & _ & Hs & Hm & _ & _ & _ & _ & Hc & _).
  - reflexivity.
  - exists l, st'. split; [exact H |]. split; [exact Hm |]. split; [exact Hs | exact Hc].
Defined.

(** [Write] leaves the directory and the file objects as they are. *)
Lemma Write_frame f b w :
  dir (Write f b w).2 = dir w /\ files (Write f b w).2 = files w /\
  ((Write f b w).1 <> None -> data (Write f b w).2 = data w).
Proof.
  unfold Write. destruct (files w !! f) as [fo|]; [destruct (f_closed fo) |]; done.
Qed.

(** X10.  Construction and the first call compose: a Logger made on a file
    that is there, asked for a line of at most a mebibyte, appends the line
    to what the file held, returns [nil], and counts the bytes of the
    line. *)
Theorem constructed_logger_appends name m flg st ino old calldepth s now Caller b :
  name <> EmptyString ->
  dir (os st) !! name = Some ino -> data (os st) !! ino = Some old ->
  format_line (made (NewRollFileLogger name m flg st)) now
    (caller_info (made (NewRollFileLogger name m flg st)) calldepth Caller).1
    (caller_info (made (NewRollFileLogger name m flg st)) calldepth Caller).2 s = Some b ->
  Z.of_nat (length b) <= MiB ->
  exists l' st',
    output (made (NewRollFileLogger name m flg st)) calldepth s now Caller
      (NewRollFileLogger name m flg st).2 = Some (None, l', st') /\
    file_content name (os st') = Some (old ++ b) /\
    size l' = Z.of_nat (length b) /\
    out l' = length (files (os st)) /\
    currentOutFile st' = Some (out l').
Proof.
  intros Hne Hd Ho Hb Hlen.
  set (r := NewRollFileLogger name m flg st) in *.
  assert (Hr : r = (inr {| prefix := ""; flag := flg; out := length (files (os st));
                           buf := []; size := 0; path := name;
                           maxsize := if m <? 1024 * 1024 then 1024 * 1024 * 10 else m |},
                    {| os := {| dir := dir (os st); data := data (os st);
                                files := files (os st) ++
                                  [{| f_name := name; f_inode := ino; f_closed := false |}];
                                calls := calls (os st) ++
                                  [CallOpen name (Z.lor O_APPEND O_WRONLY) 384
                                     (inr (length (files (os st))))] |};
                       currentOutFile := Some (length (files (os st))) |})).
  { subst r. unfold NewRollFileLogger, OpenFile. by rewrite Hd. }
  clearbody r. subst r. unfold made in *. cbn [fst snd] in *.
  set (l := {| prefix := ""; flag := flg; out := _; buf := []; size := 0;
               path := name; maxsize := _ |}) in *.
  rewrite (output_rolls l calldepth s now Caller _ b Hne Hb).
  assert (Hc : counted (set_buf l b) = Z.of_nat (length b)).
  { unfold counted. cbn [size buf set_buf l]. apply to_uint_id. unfold MiB in Hlen. lia. }
  rewrite rollFile_noop.
  2:{ rewrite Hc. cbn [maxsize set_buf l]. unfold MiB in Hlen.
      destruct (Z.ltb_spec m (1024 * 1024)); lia. }
  cbn [out buf set_buf set_size l os currentOutFile].
  unfold Write. cbn [files].
  rewrite lookup_app_r, Nat.sub_diag by lia. cbn [lookup list_lookup f_closed fst snd f_inode].
  eexists _, _. split; [reflexivity |].
  cbn [os size set_size out currentOutFile].
  split; [| by rewrite Hc].
  unfold file_content. cbn [dir data]. rewrite Hd, list_lookup_alter_eq, Ho. done.
Qed.

(** ** What [output] keeps and what it never does *)

(** X11.  A Logger whose sink is the package's current file stays so: after
    every call of [output], whether it only wrote, rotated, or failed, the
    package's current file is again the sink of the Logger. *)
Theorem output_keeps_current_file l calldepth s now Caller st e l' st' :
  currentOutFile st = Some (out l) ->
  output l calldepth s now Caller st = Some (e, l', st') ->
  currentOutFile st' = Some (out l').
Proof.
  intros Hcur Hout. unfold output in Hout.
  destruct (caller_info l calldepth Caller) as [file line].
  destruct (format_line l now file line s) as [b|]; [| done].
  cbn [mbind option_bind] in Hout.
  replace (path (set_buf l b)) with (path l) in Hout by done.
  destruct (0 <? Z.of_nat (String.length (path l))).
  - pose proof (rollFile_noop (set_buf l b) now st) as Hnoop.
    pose proof (rollFile_calls (set_buf l b) now st) as Hroll.
    destruct (Z_lt_le_dec (maxsize (set_buf l b)) (counted (set_buf l b))) as [Hgt | Hle].
    + destruct (Hroll Hgt) as (closes & ro & _ & _ & Herr & Hro & _).
      destruct (rollFile (set_buf l b) now st) as [[[err|] l1] st1]; cbn [fst snd] in *.
      * injection Hout as <- <- <-. destruct ro as [e' | f]; [| done].
        destruct Hro as (Ho & Hc & _). by rewrite Hc, Ho.
      * destruct ro as [e' | f]; [done |]. destruct Hro as (Ho & Hc & _).
        destruct (Write (out l1) (buf l1) (os st1)) as [we w1].
        injection Hout as <- <- <-. cbn. by rewrite Hc, Ho.
    + rewrite (Hnoop Hle) in Hout. cbn [out buf set_size set_buf] in Hout.
      destruct (Write (out l) b (os st)) as [we w1].
      by injection Hout as <- <- <-.
  - cbn [out buf set_buf] in Hout.
    destruct (Write (out l) b (os st)) as [we w1].
    by injection Hout as <- <- <-.
Qed.

(** X12.  A Logger without a path never rotates, whatever its counter and
    threshold: a call of [output] makes one call, the [Write] of the line
    to the sink, and leaves the counter, the directory, the file objects
    and the package's current file as they were.  The error of the write is
    what the call returns: on a sink that is not open the line is lost and
    no file changes. *)
Theorem pathless_logger_only_writes l calldepth s now Caller st :
  path l = EmptyString ->
  exists b r w',
    format_line l now (caller_info l calldepth Caller).1
      (caller_info l calldepth Caller).2 s = Some b /\
    output l calldepth s now Caller st =
      Some (r, set_buf l b, {| os := w'; currentOutFile := currentOutFile st |}) /\
    calls_since (os st) w' = [CallWrite (out l) b r] /\
    dir w' = dir (os st) /\ files w' = files (os st) /\
    (is_open (out l) (os st) = true ->
     r = None /\
     file_content_of (out l) w' = (fun old => old ++ b) <$> file_content_of (out l) (os st)) /\
    (is_open (out l) (os st) = false -> r <> None /\ data w' = data (os st)).
Proof.
  intros Hp. unfold output.
  destruct (caller_info l calldepth Caller) as [file line]. cbn [fst snd].
  destruct (format_line_total l now file line s) as [b Hb]. rewrite Hb.
  cbn [mbind option_bind].
  replace (path (set_buf l b)) with (path l) by done. rewrite Hp.
  cbn [String.length Z.of_nat Z.ltb Z.compare out buf set_buf].
  pose proof (Write_calls (out l) b (os st)) as Hc.
  pose proof (Write_frame (out l) b (os st)) as (Hd & Hf & Hdata).
  pose proof (Write_appends (out l) b (os st)) as Ha.
  assert (Hclosed : is_open (out l) (os st) = false -> (Write (out l) b (os st)).1 <> None).
  { unfold is_open, Write. destruct (files (os st) !! out l) as [fo|]; [| done].
    by destruct (f_closed fo). }
  destruct (Write (out l) b (os st)) as [r w']. cbn [fst snd] in *.
  exists b, r, w'. split; [done |]. split; [done |].
  split; [by apply calls_since_app |].
  split; [done |]. split; [done |]. split; [done |].
  intros Hno. split; [by apply Hclosed | by apply Hdata, Hclosed].
Qed.

(** Below the threshold [output] is its write. *)
Lemma output_below_threshold_write l calldepth s now Caller st b :
  path l <> EmptyString ->
  format_line l now (caller_info l calldepth Caller).1
    (caller_info l calldepth Caller).2 s = Some b ->
  counted (set_buf l b) <= maxsize l ->
  output l calldepth s now Caller st =
    Some ((Write (out l) b (os st)).1,
          set_size (set_buf l b) (counted (set_buf l b)),
          {| os := (Write (out l) b (os st)).2; currentOutFile := currentOutFile st |}).
Proof.
  intros Hp Hb Hle.
  rewrite (output_rolls l calldepth s now Caller st b Hp Hb).
  by rewrite rollFile_noop by done.
Qed.

Lemma Write_keeps_open f b w g : is_open g (Write f b w).2 = is_open g w.
Proof.
  unfold is_open. by rewrite (proj1 (proj2 (Write_frame f b w))).
Qed.

(** X13.  Calls below the threshold compose: two calls in a row on a Logger
    with a path and an open sink, whose lines fit under the threshold
    together with what was counted, both return [nil], make no call but
    their two writes, leave the two lines in the file in the order of the
    calls, and add the two lengths to the counter. *)
Theorem two_lines_below_threshold l d1 s1 t1 C1 d2 s2 t2 C2 st b1 b2 :
  path l <> EmptyString ->
  is_open (out l) (os st) = true ->
  format_line l t1 (caller_info l d1 C1).1 (caller_info l d1 C1).2 s1 = Some b1 ->
  format_line l t2 (caller_info l d2 C2).1 (caller_info l d2 C2).2 s2 = Some b2 ->
  0 <= size l ->
  size l + Z.of_nat (length b1) + Z.of_nat (length b2) <= maxsize l ->
  maxsize l < 2 ^ 64 ->
  exists l1 st1 l2 st2,
    output l d1 s1 t1 C1 st = Some (None, l1, st1) /\
    output l1 d2 s2 t2 C2 st1 = Some (None, l2, st2) /\
    calls_since (os st) (os st2) =
      [CallWrite (out l) b1 None; CallWrite (out l) b2 None] /\
    file_content_of (out l) (os st2) =
      (fun old => old ++ b1 ++ b2) <$> file_content_of (out l) (os st) /\
    size l2 = size l + Z.of_nat (length b1) + Z.of_nat (length b2) /\
    out l2 = out l /\ currentOutFile st2 = currentOutFile st.
Proof.
  intros Hp Hopen H1 H2 Hs Hle Hmax.
  assert (Hc1 : counted (set_buf l b1) = size l + Z.of_nat (length b1)).
  { unfold counted. cbn [size buf set_buf]. apply to_uint_id. lia. }
  set (l1 := set_size (set_buf l b1) (counted (set_buf l b1))).
  set (w1 := (Write (out l) b1 (os st)).2).
  set (st1 := {| os := w1; currentOutFile := currentOutFile st |}).
  assert (Hc2 : counted (set_buf l1 b2)
                = size l + Z.of_nat (length b1) + Z.of_nat (length b2)).
  { unfold counted. cbn [size buf set_buf set_size l1]. rewrite Hc1.
    apply to_uint_id. lia. }
  destruct (Write_appends (out l) b1 (os st) Hopen) as [Hr1 Hfc1].
  assert (Hopen1 : is_open (out l) w1 = true)
    by (subst w1; by rewrite Write_keeps_open).
  destruct (Write_appends (out l) b2 w1 Hopen1) as [Hr2 Hfc2].
  pose proof (Write_calls (out l) b1 (os st)) as Hcalls1.
  pose proof (Write_calls (out l) b2 w1) as Hcalls2.
  rewrite Hr1 in Hcalls1. rewrite Hr2 in Hcalls2.
  exists l1, st1, (set_size (set_buf l1 b2) (counted (set_buf l1 b2))),
    {| os := (Write (out l) b2 w1).2; currentOutFile := currentOutFile st |}.
  split.
  { rewrite (output_below_threshold_write l d1 s1 t1 C1 st b1 Hp H1), Hr1; [done |].
    rewrite Hc1. lia. }
  split.
  { rewrite (output_below_threshold_write l1 d2 s2 t2 C2 st1 b2);
      [by rewrite <- Hr2 | done | exact H2 |].
    rewrite Hc2. cbn [maxsize set_buf set_size l1]. lia. }
  cbn [os size set_size out set_buf currentOutFile].
  split.
  { apply calls_since_app. fold w1 in Hcalls1. by rewrite Hcalls2, Hcalls1, <- app_assoc. }
  split.
  { fold w1 in Hfc1. rewrite Hfc2, Hfc1.
    destruct (file_content_of (out l) (os st)); [| done].
    cbn. by rewrite <- app_assoc. }
  by rewrite Hc2.
Qed.

(** ** A rotation, step by step *)

(** Above the threshold [rollFile] is its three calls: the result is read
    off the open, and the buffer has been through the line that notes a
    failure once for each step that failed. *)
Lemma rollFile_above l now st :
  maxsize l < counted l ->
  let o := OpenFile (opened_path l now (renamed l now st)) (Z.lor O_APPEND O_WRONLY) 384
             (Rename (path l) (rolled_name (path l) now) (after_close st)).2 in
  let b := noted roll_failed (renamed l now st)
             (noted close_failed (closed st) (buf l)) in
  rollFile l now st =
    match o.1 with
    | inl err =>
        (Some err, set_buf (set_size l (counted l)) b,
         {| os := o.2; currentOutFile := currentOutFile st |})
    | inr f =>
        (None,
         set_size (set_out (set_buf (set_size l (counted l)) b) f)
           (to_uint (Z.of_nat (length b))),
         {| os := o.2; currentOutFile := Some f |})
    end.
Proof.
  intros H o b. subst o b. unfold rollFile. cbn [size set_size maxsize].
  fold (counted l). destruct (Z.ltb_spec (maxsize l) (counted l)) as [_ | ?]; [| lia].
  unfold renamed, closed, close_current, after_close, close_failed, roll_failed.
  destruct (currentOutFile st) as [f|].
  - destruct (Close f (os st)) as [[ce|] w1]; cbn [fst snd path warn set_buf set_size];
      destruct (Rename (path l) (rolled_name (path l) now) w1) as [[re|] w2];
      cbn [fst snd opened_path noted path warn set_buf set_size buf];
      destruct (OpenFile _ _ _ w2) as [[oe|g] w3]; cbn [fst snd];
      unfold set_size, set_out, set_buf, warn; cbn; reflexivity.
  - cbn [fst snd path warn set_buf set_size].
    destruct (Rename (path l) (rolled_name (path l) now) (os st)) as [[re|] w2];
      cbn [fst snd opened_path noted path warn set_buf set_size buf];
      destruct (OpenFile _ _ _ w2) as [[oe|g] w3]; cbn [fst snd];
      unfold set_size, set_out, set_buf, warn; cbn; reflexivity.
Qed.

Lemma after_close_frame st :
  dir (after_close st) = dir (os st) /\ data (after_close st) = data (os st) /\
  length (files (after_close st)) = length (files (os st)) /\
  (forall g, currentOutFile st <> Some g ->
     is_open g (after_close st) = is_open g (os st)) /\
  (forall f, currentOutFile st = Some f -> is_open f (after_close st) = false).
Proof.
  unfold after_close. destruct (currentOutFile st) as [f|].
  - pose proof (Close_frame f (os st)) as (Hd & Hda & Hl).
    repeat split; try done.
    + intros g Hg. apply Close_other. congruence.
    + intros f' [= <-]. apply Close_closes.
  - repeat split; try done.
Qed.

(** [Rename] succeeds exactly when neither name holds a NUL byte and the
    old path names a file, and then moves that one name; when it fails the
    directory is as it was. *)
Lemma Rename_dir old new w :
  ((Rename old new w).1 = None <->
     has_nul old = false /\ has_nul new = false /\ is_Some (dir w !! old)) /\
  (forall ino, (Rename old new w).1 = None -> dir w !! old = Some ino ->
     dir (Rename old new w).2 = <[new := ino]> (delete old (dir w))) /\
  ((Rename old new w).1 <> None -> dir (Rename old new w).2 = dir w) /\
  (has_nul old || has_nul new = true ->
   (Rename old new w).1 = Some (LinkError "rename" old new EINVAL)).
Proof.
  unfold Rename. destruct (has_nul old) eqn:Eo; [| destruct (has_nul new) eqn:En]; cbn.
  - repeat split; try done. by intros (? & _).
  - repeat split; try done. by intros (_ & ? & _).
  - destruct (dir w !! old) as [ino|]; cbn.
    + repeat split; try done. by intros ino' _ [= <-].
    + repeat split; try done. by intros (_ & _ & [? ?]).
Qed.

(** An open that cannot create closes no handle. *)
Lemma OpenFile_keeps_open name flg perm w g :
  Z.land flg O_CREATE = 0 ->
  g <> length (files w) ->
  is_open g (OpenFile name flg perm w).2 = is_open g w.
Proof.
  intros Hf Hg. unfold OpenFile, is_open, File in *. rewrite Hf, orb_true_r.
  destruct (dir w !! name); cbn; [| done].
  destruct (files w !! g) as [fo|] eqn:Eg.
  - by rewrite (lookup_app_l_Some _ _ _ _ Eg).
  - apply lookup_ge_None_1 in Eg.
    rewrite lookup_app_r by lia.
    destruct (g - length (files w))%nat eqn:E; [lia | done].
Qed.

(** X15.  A rotation that fails loses the line and is tried again at every
    later call: [output] returns the error without a write and without a
    change to any file's content, the counter keeps the bytes of the lost
    line, and with any line pending the Logger is again above its
    threshold. *)
Theorem failed_rotation_is_retried l calldepth s now Caller st b :
  path l <> EmptyString ->
  format_line l now (caller_info l calldepth Caller).1
    (caller_info l calldepth Caller).2 s = Some b ->
  maxsize l < counted (set_buf l b) ->
  (rollFile (set_buf l b) now st).1.1 <> None ->
  exists e l' st',
    output l calldepth s now Caller st = Some (Some e, l', st') /\
    data (os st') = data (os st) /\
    forallb (fun c => negb (is_write c)) (calls_since (os st) (os st')) = true /\
    size l' = counted (set_buf l b) /\
    maxsize l' = maxsize l /\ path l' = path l /\
    (forall b2, size l' + Z.of_nat (length b2) < 2 ^ 64 ->
       maxsize l' < counted (set_buf l' b2)).
Proof.
  intros Hp Hb Hgt Hfail.
  rewrite (output_rolls l calldepth s now Caller st b Hp Hb).
  pose proof (rollFile_data (set_buf l b) now st) as Hd.
  destruct (rollFile_calls (set_buf l b) now st Hgt)
    as (closes & ro & Hcalls & Hcl & _).
  pose proof (rollFile_above (set_buf l b) now st Hgt) as Habove. cbn zeta in Habove.
  destruct (OpenFile _ _ _ _) as [[oe | f] w3] in Habove; cbn [fst] in Habove;
    rewrite Habove in Hfail, Hd, Hcalls |- *; [| done].
  cbn [fst snd os] in *.
  eexists _, _, _. split; [reflexivity |].
  cbn [os size set_size set_buf maxsize path buf].
  split; [done |]. split.
  { rewrite (calls_since_app _ _ _ Hcalls), forallb_app. subst closes.
    by destruct (currentOutFile st). }
  split; [done |]. split; [done |]. split; [done |].
  intros b2 Hfit. cbn [size buf set_buf set_size] in Hfit.
  assert (Hpos : 0 <= counted (set_buf l b)) by (apply Z.mod_pos_bound; lia).
  cbn [maxsize set_buf] in Hgt.
  set (n := counted (set_buf l b)) in *.
  unfold counted. cbn [size buf set_buf set_size]. fold n.
  rewrite to_uint_id by lia. lia.
Qed.

Lemma rollFile_above_os l now st :
  maxsize l < counted l ->
  os (rollFile l now st).2 =
    (OpenFile (opened_path l now (renamed l now st)) (Z.lor O_APPEND O_WRONLY) 384
       (Rename (path l) (rolled_name (path l) now) (after_close st)).2).2.
Proof.
  intros H. rewrite (rollFile_above l now st H). cbn zeta.
  by destruct (OpenFile _ _ _ _) as [[oe | f] w3].
Qed.



(** ** The rotated name *)

Lemma lor_disjoint a x k :
  0 <= k -> 0 <= x < 2 ^ k -> a mod 2 ^ k = 0 -> Z.lor a x = a + x.
Proof.
  intros Hk Hx Ha. rewrite <- Z.add_nocarry_lor; [done |].
  apply Z.bits_inj'. intros n Hn. rewrite Z.land_spec, Z.bits_0.
  destruct (Z_lt_le_dec n k) as [Hlt | Hge].
  - rewrite <- (Z.mod_pow2_bits_low a k n) by lia. by rewrite Ha, Z.bits_0.
  - rewrite <- (Z.mod_small x (2 ^ k)) by lia.
    rewrite Z.mod_pow2_bits_high by lia. apply andb_false_r.
Qed.

Lemma to_byte_inj x y : 0 <= x < 256 -> 0 <= y < 256 -> to_byte x = to_byte y -> x = y.
Proof.
  intros Hx Hy E. unfold to_byte in E.
  apply (f_equal N_of_ascii) in E.
  rewrite !N_ascii_embedding in E by (rewrite Z.mod_small by lia; lia).
  rewrite !Z.mod_small in E by lia. lia.
Qed.

(** The bytes of [string(v)] for a year. *)
Lemma intstring_year y :
  0 <= y <= 9999 ->
  bytes (intstring y) =
    if y <=? 127 then [to_byte y]
    else if y <=? 2047 then [to_byte (192 + y / 64); to_byte (128 + y mod 64)]
    else [to_byte (224 + y / 4096); to_byte (128 + (y / 64) mod 64);
          to_byte (128 + y mod 64)].
Proof.
  intros Hy. unfold intstring, bytes. rewrite list_ascii_of_string_of_list_ascii.
  assert (Hr : is_rune y = true).
  { unfold is_rune, maxRune.
    repeat (apply andb_true_intro; split); try (apply Z.leb_le; lia).
    apply negb_true_iff, andb_false_intro1, Z.leb_gt. lia. }
  rewrite Hr. unfold encoderune.
  assert (H63 : Z.land y 63 = y mod 64) by (change 63 with (Z.ones 6); by rewrite Z.land_ones).
  assert (H63' : Z.land (Z.shiftr y 6) 63 = (y / 64) mod 64).
  { change 63 with (Z.ones 6). rewrite Z.land_ones, Z.shiftr_div_pow2 by lia. done. }
  assert (Hm : 0 <= y mod 64 < 64) by (apply Z.mod_pos_bound; lia).
  assert (Hm' : 0 <= (y / 64) mod 64 < 64) by (apply Z.mod_pos_bound; lia).
  destruct (Z.leb_spec y 127); [done |].
  destruct (Z.leb_spec y 2047).
  - rewrite H63, Z.shiftr_div_pow2 by lia. change (2 ^ 6) with 64.
    rewrite (lor_disjoint 192 (y / 64) 6), (lor_disjoint 128 (y mod 64) 6); try done; try lia.
    split; [apply Z.div_pos; lia | apply Z.div_lt_upper_bound; lia].
  - destruct (Z.leb_spec y 65535); [| lia].
    rewrite H63, H63', Z.shiftr_div_pow2 by lia. change (2 ^ 12) with 4096.
    rewrite (lor_disjoint 224 (y / 4096) 4), (lor_disjoint 128 (y mod 64) 6),
      (lor_disjoint 128 ((y / 64) mod 64) 6); try done; try lia.
    split; [apply Z.div_pos; lia | apply Z.div_lt_upper_bound; lia].
Qed.

Lemma intstring_small v : 0 <= v <= 127 -> bytes (intstring v) = [to_byte v].
Proof.
  intros Hv. rewrite intstring_year by lia.
  by destruct (Z.leb_spec v 127); [| lia].
Qed.

Lemma intstring_year_inj y1 y2 :
  0 <= y1 <= 9999 -> 0 <= y2 <= 9999 ->
  bytes (intstring y1) = bytes (intstring y2) -> y1 = y2.
Proof.
  intros H1 H2. rewrite !intstring_year by done.
  assert (Hq : forall y, 0 <= y <= 9999 -> 0 <= y / 64 < 157 /\ 0 <= y / 4096 < 3 /\
                         0 <= y mod 64 < 64 /\ 0 <= (y / 64) mod 64 < 64 /\
                         y = 64 * (y / 64) + y mod 64 /\
                         y / 64 = 64 * (y / 4096) + (y / 64) mod 64).
  { intros y Hy.
    assert (y / 4096 = y / 64 / 64) by (rewrite Z.div_div by lia; done).
    pose proof (Z.div_mod y 64 ltac:(lia)).
    pose proof (Z.div_mod (y / 64) 64 ltac:(lia)).
    pose proof (Z.mod_pos_bound y 64 ltac:(lia)).
    pose proof (Z.mod_pos_bound (y / 64) 64 ltac:(lia)).
    assert (0 <= y / 64 < 157)
      by (split; [apply Z.div_pos; lia | apply Z.div_lt_upper_bound; lia]).
    assert (0 <= y / 4096 < 3)
      by (split; [apply Z.div_pos; lia | apply Z.div_lt_upper_bound; lia]).
    lia. }
  destruct (Hq y1 H1) as (? & ? & ? & ? & ? & ?).
  destruct (Hq y2 H2) as (? & ? & ? & ? & ? & ?).
  destruct (Z.leb_spec y1 127), (Z.leb_spec y2 127),
    (Z.leb_spec y1 2047), (Z.leb_spec y2 2047);
    try discriminate; try (exfalso; lia).
  - intros [= E]. apply to_byte_inj in E; lia.
  - intros [= Ea Eb]. apply to_byte_inj in Ea, Eb; lia.
  - intros [= Ea Eb Ec]. apply to_byte_inj in Ea, Eb, Ec; lia.
Qed.

(** X19.  Rotated names tell the seconds apart: for two valid times, the
    rotated names of one path are equal exactly when the times have the
    same year, month, day, hour, minute and second.  (Each of the month,
    day, hour, minute and second is one byte of the name, and the year is
    its UTF-8 encoding.) *)
Theorem rolled_name_tells_seconds_apart p t1 t2 :
  valid_time t1 -> valid_time t2 ->
  rolled_name p t1 = rolled_name p t2 <->
  Year t1 = Year t2 /\ Month t1 = Month t2 /\ Day t1 = Day t2 /\
  Hour t1 = Hour t2 /\ Minute t1 = Minute t2 /\ Second t1 = Second t2.
Proof.
  intros (Hy1 & Hmo1 & Hd1 & Hh1 & Hmi1 & Hs1 & _) (Hy2 & Hmo2 & Hd2 & Hh2 & Hmi2 & Hs2 & _).
  split.
  2:{ intros (Ey & Emo & Ed & Eh & Emi & Es). unfold rolled_name.
      by rewrite Ey, Emo, Ed, Eh, Emi, Es. }
  intros E. apply (f_equal bytes) in E. unfold rolled_name in E.
  rewrite !bytes_app in E. apply app_inv_head in E.
  rewrite !(intstring_small (Month _)), !(intstring_small (Day _)),
    !(intstring_small (Hour _)), !(intstring_small (Minute _)),
    !(intstring_small (Second _)) in E by lia.
  cbn [app] in E.
  apply app_inj_2 in E as [Ey Et]; [| done].
  injection Et as Emo Ed Eh Emi Es.
  apply intstring_year_inj in Ey; [| done | done].
  apply to_byte_inj in Emo, Ed, Eh, Emi, Es; lia.
Qed.

Lemma rolled_name_tells_seconds_apart_witness :
  rolled_name "ara.log" noon_0304 = rolled_name "ara.log" noon_0304 <->
  Year noon_0304 = Year noon_0304 /\ Month noon_0304 = Month noon_0304 /\
  Day noon_0304 = Day noon_0304 /\ Hour noon_0304 = Hour noon_0304 /\
  Minute noon_0304 = Minute noon_0304 /\ Second noon_0304 = Second noon_0304.
Proof.
  apply (rolled_name_tells_seconds_apart "ara.log" noon_0304 noon_0304);
    unfold valid_time; cbn; lia.
Defined.

(** ** What no call changes *)

(** X20.  [output] never changes the configuration of a Logger: after every
    call, whatever it returned, the prefix, the flags, the path and the
    threshold are as they were, and a counter that was a [uint] is one. *)
Theorem output_keeps_configuration l calldepth s now Caller st e l' st' :
  output l calldepth s now Caller st = Some (e, l', st') ->
  prefix l' = prefix l /\ flag l' = flag l /\ path l' = path l /\
  maxsize l' = maxsize l /\
  (0 <= size l < 2 ^ 64 -> 0 <= size l' < 2 ^ 64).
Proof.
  intros Hout. unfold output in Hout.
  destruct (caller_info l calldepth Caller) as [file line].
  destruct (format_line l now file line s) as [b|]; [| done].
  cbn [mbind option_bind] in Hout.
  replace (path (set_buf l b)) with (path l) in Hout by done.
  assert (Hu : forall x, 0 <= to_uint x < 2 ^ 64) by (intros x; apply Z.mod_pos_bound; lia).
  destruct (0 <? Z.of_nat (String.length (path l))).
  - destruct (Z_lt_le_dec (maxsize (set_buf l b)) (counted (set_buf l b))) as [Hgt | Hle].
    + pose proof (rollFile_above (set_buf l b) now st Hgt) as Ha. cbn zeta in Ha.
      destruct (OpenFile _ _ _ _) as [[oe | f] w3] in Ha; cbn [fst] in Ha;
        rewrite Ha in Hout.
      * injection Hout as <- <- <-. cbn. repeat split; try done; apply Hu.
      * destruct (Write _ _ _) as [we w1] in Hout.
        injection Hout as <- <- <-. cbn. repeat split; try done; apply Hu.
    + rewrite (rollFile_noop _ now st Hle) in Hout.
      destruct (Write _ _ _) as [we w1] in Hout.
      injection Hout as <- <- <-. cbn. repeat split; try done; apply Hu.
  - destruct (Write _ _ _) as [we w1] in Hout.
    by injection Hout as <- <- <-.
Qed.

(** X21.  The prefix comes first and as it is in every header, whatever the
    time and the line; and under a flag word with none of the five options
    the header is the prefix alone, so the line is the prefix, the message,
    and a newline exactly when the message is not empty and does not end
    in one. *)
Theorem header_starts_with_prefix l t file line s :
  (exists rest, header_of l t file line = bytes (prefix l) ++ rest) /\
  (Z.land (flag l) 31 = 0 ->
   header_of l t file line = bytes (prefix l) /\
   format_line l t file line s =
     Some (bytes (prefix l) ++ bytes s ++
           (if negb (String.eqb s "") && negb (ends_in_newline s)
            then [newline] else []))).
Proof.
  split.
  - unfold header_of, formatHeader.
    destruct (flag_any (flag l) (Z.lor Ldate (Z.lor Ltime Lmicroseconds))),
      (flag_any (flag l) Ldate), (flag_any (flag l) (Z.lor Ltime Lmicroseconds)),
      (flag_any (flag l) Lmicroseconds), (flag_any (flag l) (Z.lor Lshortfile Llongfile)),
      (flag_any (flag l) Lshortfile);
      repeat (cbn [mbind option_bind]; rewrite itoa_header by lia);
      cbn [mbind option_bind from_option app]; unfold id;
      rewrite <- ?app_assoc;
      first [ eexists; reflexivity | exists []; by rewrite app_nil_r ].
  - intros H0.
    assert (Hbit : forall k, 0 <= k <= 4 -> Z.testbit (flag l) k = false).
    { intros k Hk. apply (f_equal (fun x => Z.testbit x k)) in H0.
      rewrite Z.land_spec, Z.bits_0 in H0. change 31 with (Z.ones 5) in H0.
      rewrite Z.testbit_ones_nonneg in H0 by lia.
      destruct (Z.ltb_spec k 5); [| lia]. by rewrite andb_true_r in H0. }
    assert (Hh : formatHeader l [] t file line = Some (bytes (prefix l))).
    { unfold formatHeader.
      rewrite !flag_any_lor, !flag_Ldate, !flag_Ltime, !flag_Lmicroseconds,
        !flag_Llongfile, !flag_Lshortfile.
      unfold has_Date, has_Time, has_Microseconds, has_ShortFile, has_LongFile.
      by rewrite !Hbit by lia. }
    split; [unfold header_of; by rewrite Hh |].
    unfold format_line, ends_in_newline. rewrite Hh. cbn [mbind option_bind].
    rewrite get_last, nonempty_length.
    destruct (negb (s =? "")%string && negb _); [by rewrite <- app_assoc | by rewrite app_nil_r].
Qed.

Lemma header_starts_with_prefix_witness :
  header_of (New 0%nat "log: " 0) noon_0304 "" 0 = bytes "log: " /\
  format_line (New 0%nat "log: " 0) noon_0304 "" 0 "hello"
    = Some (bytes "log: " ++ bytes "hello" ++ [newline]).
Proof.
  destruct (header_starts_with_prefix (New 0%nat "log: " 0) noon_0304 "" 0 "hello")
    as [_ H].
  apply H. reflexivity.
Defined.

(** ** Names that the system refuses *)






(** X17.  A rotation creates no file and writes to none: the contents are
    as they were.  The directory changes only when the rename succeeds:
    then the path names nothing, the rotated name names the log file, in
    the place of any file it named before, and every other name is where
    it was; when the rename fails the directory is as it was.  The only
    handle closed is the package's current file: every other open handle
    is still open. *)
Theorem rotation_moves_at_most_one_name l now st :
  maxsize l < counted l ->
  data (os (rollFile l now st).2) = data (os st) /\
  (renamed l now st <> None -> dir (os (rollFile l now st).2) = dir (os st)) /\
  (renamed l now st = None ->
   exists ino,
     dir (os st) !! path l = Some ino /\
     dir (os (rollFile l now st).2)
       = <[rolled_name (path l) now := ino]> (delete (path l) (dir (os st))) /\
     dir (os (rollFile l now st).2) !! path l = None /\
     dir (os (rollFile l now st).2) !! rolled_name (path l) now = Some ino /\
     (forall name, name <> path l -> name <> rolled_name (path l) now ->
        dir (os (rollFile l now st).2) !! name = dir (os st) !! name)) /\
  (forall g, currentOutFile st <> Some g -> is_open g (os st) = true ->
     is_open g (os (rollFile l now st).2) = true) /\
  (forall f, currentOutFile st = Some f -> is_Some (files (os st) !! f) ->
     is_open f (os (rollFile l now st).2) = false).
Proof.
  intros H. split; [apply rollFile_data |].
  rewrite (rollFile_above_os l now st H).
  destruct (after_close_frame st) as (Hd & _ & Hlen & Hother & Hcur).
  destruct (Rename_dir (path l) (rolled_name (path l) now) (after_close st))
    as (Hrn & Hmv & Hsame & _).
  destruct (Rename_frame (path l) (rolled_name (path l) now) (after_close st)) as [_ Hfiles].
  rewrite Hd in Hrn, Hmv. fold (renamed l now st) in Hrn, Hmv, Hsame.
  set (w2 := (Rename (path l) (rolled_name (path l) now) (after_close st)).2) in *.
  destruct (OpenFile_no_create (opened_path l now (renamed l now st))
              (Z.lor O_APPEND O_WRONLY) 384 w2 append_wronly_no_create) as (Hod & _).
  rewrite Hod.
  assert (Hlt : forall g fo, files (os st) !! g = Some fo -> g <> length (files w2)).
  { intros g fo Hg. apply lookup_lt_Some in Hg. rewrite Hfiles, Hlen. lia. }
  assert (Hopen2 : forall g, is_open g w2 = is_open g (after_close st)).
  { intros g. unfold is_open. by rewrite Hfiles. }
  split; [intros Hne; by rewrite Hsame, Hd |]. split.
  { intros Hr. destruct (proj1 Hrn Hr) as (_ & _ & [ino Hino]).
    pose proof (rolled_name_differs (path l) now) as Hdiff.
    exists ino. split; [done |]. rewrite (Hmv ino Hr Hino).
    split; [done |]. split.
    - rewrite lookup_insert_ne by done. apply lookup_delete_eq.
    - split; [apply lookup_insert_eq |].
      intros name Hn1 Hn2.
      rewrite lookup_insert_ne by done. by rewrite lookup_delete_ne. }
  split.
  - intros g Hg Hopen.
    rewrite OpenFile_keeps_open, Hopen2, Hother; [done | done | done |].
    unfold is_open in Hopen. destruct (files (os st) !! g) as [fo|] eqn:Eg; [| done].
    by eapply Hlt.
  - intros f Hf [fo Hfo].
    rewrite OpenFile_keeps_open, Hopen2; [by apply Hcur | done | by eapply Hlt].
Qed.

End Repair.

(** * The theorems at work

    The theorems above that have a hypothesis, on concrete Loggers and
    states, with [append_line] at the two lines that note a failure. *)

Lemma output_line_template_witness :
  exists err w',
    output append_line (New 0%nat "" Ltime) 2 "hello" noon_0304 no_caller one_stream =
      Some (err, set_buf (New 0%nat "" Ltime) (bytes "12:03:04 hello" ++ [newline]),
            {| os := w'; currentOutFile := None |}) /\
    calls w' = [CallWrite 0%nat (bytes "12:03:04 hello" ++ [newline]) err] /\
    err = None.
Proof.
  destruct (output_line_template append_line (New 0%nat "" Ltime) 2 "hello" noon_0304
              no_caller one_stream) as (_ & _ & H & _).
  - unfold valid_time. simpl. lia.
  - simpl. lia.
  - destruct (H eq_refl) as (err & w' & Ho & Hc & He).
    exists err, w'. split; [exact Ho |]. split; [exact Hc |].
    apply He. reflexivity.
Defined.

(** C4 as it is stated fails for the empty message: the line is the header
    alone and does not end in a newline. *)
Lemma output_empty_message_unterminated :
  exists w',
    (forall mended,
       output mended (New 0%nat "" Ltime) 2 "" noon_0304 no_caller one_stream =
         Some (None, set_buf (New 0%nat "" Ltime) (bytes "12:03:04 "),
               {| os := w'; currentOutFile := None |})) /\
    calls w' = [CallWrite 0%nat (bytes "12:03:04 ") None] /\
    file_content_of 0%nat w' = Some (bytes "12:03:04 ") /\
    last (bytes "12:03:04 ") <> Some newline.
Proof.
  eexists. split; [intros mended; by vm_compute |]. split; [done |]. split; [done |].
  by vm_compute.
Qed.

Lemma constructed_logger_appends_witness :
  exists l' st',
    output append_line (made (NewRollFileLogger "ara.log" 0 LstdFlags one_log)) 2 "hello" noon_0304
      no_caller (NewRollFileLogger "ara.log" 0 LstdFlags one_log).2 = Some (None, l', st') /\
    file_content "ara.log" (os st') = Some ([] ++ hello_line) /\
    size l' = Z.of_nat (length hello_line) /\
    out l' = length (files (os one_log)) /\
    currentOutFile st' = Some (out l').
Proof.
  apply (constructed_logger_appends append_line "ara.log" 0 LstdFlags one_log 0%nat []
           2 "hello" noon_0304 no_caller hello_line).
  - discriminate.
  - reflexivity.
  - reflexivity.
  - by vm_compute.
  - by vm_compute.
Defined.

Lemma output_keeps_current_file_witness :
  currentOutFile (second_roll append_line).2 = Some (out (second_roll append_line).1.2).
Proof.
  apply (output_keeps_current_file append_line (first_roll append_line).1.2 2 "again" noon_0304 no_caller
           (first_roll append_line).2 (second_roll append_line).1.1 (second_roll append_line).1.2 (second_roll append_line).2);
    by vm_compute.
Defined.

Lemma pathless_logger_only_writes_witness :
  exists b r w',
    format_line (New 0%nat "" Ltime) noon_0304
      (caller_info (New 0%nat "" Ltime) 2 no_caller).1
      (caller_info (New 0%nat "" Ltime) 2 no_caller).2 "hello" = Some b /\
    output append_line (New 0%nat "" Ltime) 2 "hello" noon_0304 no_caller one_stream =
      Some (r, set_buf (New 0%nat "" Ltime) b,
            {| os := w'; currentOutFile := currentOutFile one_stream |}) /\
    calls_since (os one_stream) w' = [CallWrite (out (New 0%nat "" Ltime)) b r] /\
    dir w' = dir (os one_stream) /\ files w' = files (os one_stream) /\
    (is_open (out (New 0%nat "" Ltime)) (os one_stream) = true ->
     r = None /\
     file_content_of (out (New 0%nat "" Ltime)) w'
       = (fun old => old ++ b) <$> file_content_of (out (New 0%nat "" Ltime)) (os one_stream)) /\
    (is_open (out (New 0%nat "" Ltime)) (os one_stream) = false ->
     r <> None /\ data w' = data (os one_stream)).
Proof.
  apply (pathless_logger_only_writes append_line (New 0%nat "" Ltime) 2 "hello" noon_0304
           no_caller one_stream).
  reflexivity.
Defined.

Lemma two_lines_below_threshold_witness :
  exists l1 st1 l2 st2,
    output append_line (made ara_logger) 2 "hello" noon_0304 no_caller ara_logger.2
      = Some (None, l1, st1) /\
    output append_line l1 2 "hello" noon_0304 no_caller st1 = Some (None, l2, st2) /\
    calls_since (os ara_logger.2) (os st2) =
      [CallWrite (out (made ara_logger)) hello_line None;
       CallWrite (out (made ara_logger)) hello_line None] /\
    file_content_of (out (made ara_logger)) (os st2) =
      (fun old => old ++ hello_line ++ hello_line)
        <$> file_content_of (out (made ara_logger)) (os ara_logger.2) /\
    size l2 = size (made ara_logger) + Z.of_nat (length hello_line)
              + Z.of_nat (length hello_line) /\
    out l2 = out (made ara_logger) /\
    currentOutFile st2 = currentOutFile ara_logger.2.
Proof.
  apply (two_lines_below_threshold append_line (made ara_logger) 2 "hello" noon_0304 no_caller
           2 "hello" noon_0304 no_caller ara_logger.2 hello_line hello_line);
    try (by vm_compute).
Defined.

Lemma failed_rotation_is_retried_witness :
  exists e l' st',
    output append_line (after_bytes MiB (made ara_logger)) 2 "hello" noon_0304 no_caller ara_logger.2
      = Some (Some e, l', st') /\
    data (os st') = data (os ara_logger.2) /\
    size l' = counted (set_buf (after_bytes MiB (made ara_logger)) hello_line).
Proof.
  destruct (failed_rotation_is_retried append_line (after_bytes MiB (made ara_logger)) 2 "hello"
              noon_0304 no_caller ara_logger.2 hello_line)
    as (e & l' & st' & Ho & Hd & _ & Hs & _); try (by vm_compute).
  by exists e, l', st'.
Defined.


Lemma output_keeps_configuration_witness :
  prefix (second_roll append_line).1.2 = prefix (first_roll append_line).1.2 /\
  flag (second_roll append_line).1.2 = flag (first_roll append_line).1.2 /\
  path (second_roll append_line).1.2 = path (first_roll append_line).1.2 /\
  maxsize (second_roll append_line).1.2 = maxsize (first_roll append_line).1.2 /\
  (0 <= size (first_roll append_line).1.2 < 2 ^ 64 -> 0 <= size (second_roll append_line).1.2 < 2 ^ 64).
Proof.
  apply (output_keeps_configuration append_line (first_roll append_line).1.2 2 "again" noon_0304 no_caller
           (first_roll append_line).2 (second_roll append_line).1.1 (second_roll append_line).1.2 (second_roll append_line).2).
  by vm_compute.
Defined.


Lemma rotation_moves_at_most_one_name_witness :
  exists ino,
    dir (os ara_logger.2) !! "ara.log"%string = Some ino /\
    dir (os (rollFile append_line
               (set_buf (after_bytes MiB (made ara_logger)) hello_line) noon_0304
               ara_logger.2).2)
      = <[rolled_name "ara.log" noon_0304 := ino]>
          (delete "ara.log"%string (dir (os ara_logger.2))) /\
    dir (os (rollFile append_line
               (set_buf (after_bytes MiB (made ara_logger)) hello_line) noon_0304
               ara_logger.2).2) !! "ara.log"%string = None.
Proof.
  destruct (rotation_moves_at_most_one_name append_line
              (set_buf (after_bytes MiB (made ara_logger)) hello_line) noon_0304 ara_logger.2)
    as (_ & _ & H & _).
  - by vm_compute.
  - destruct H as (ino & H1 & H2 & H3 & _); [by vm_compute |].
    exists ino. exact (conj H1 (conj H2 H3)).
Defined.
